(** * Agent Compiler Service: the configuration normalizer and the service factory

    A shallow embedding of [src/lib/compiler/agent-compiler-interface.ts]:

    - [convertUIConfigToPluginConfig], the function that turns the loosely
      typed UI configuration into an [AgentPluginConfig];
    - [createAgentCompilerService], the factory that prepares the output
      directory, checks the toolchain and conditionally installs it.

    The raw input has TypeScript type [unknown]; it is modelled as a JSON-like
    JavaScript value and the accesses the code performs on it follow the
    dynamic semantics of JavaScript (truthiness, reading a property of a
    primitive, [TypeError] on [null]/[undefined]).  [uuidv4] is a draw from an
    explicit identifier source; [JSON.stringify] and [Number.prototype.toString]
    are built-ins of the host and are taken as an interface. *)

From Stdlib Require Import String Ascii List Bool Arith ZArith Lia.
From Stdlib Require Import DecimalString DecimalNat.
Import ListNotations.
Local Open Scope string_scope.

Set Implicit Arguments.

(* ================================================================= *)
(** ** JavaScript values *)

(** A value as [JSON.parse] produces it, plus [undefined].  An object is the
    list of its own properties in insertion order; a key occurs once, and
    a lookup takes the first binding.  [number] is the host's number type. *)
#[warnings="-register-all"]
Inductive JsVal (number : Type) : Type :=
| JUndefined : JsVal number
| JNull : JsVal number
| JBool : bool -> JsVal number
| JNum : number -> JsVal number
| JStr : string -> JsVal number
| JArr : list (JsVal number) -> JsVal number
| JObj : list (string * JsVal number) -> JsVal number.

Arguments JUndefined {number}.
Arguments JNull {number}.
Arguments JBool {number} _.
Arguments JNum {number} _.
Arguments JStr {number} _.
Arguments JArr {number} _.
Arguments JObj {number} _.

(** The built-ins the source calls and does not define. *)
Class Host (number : Type) : Type := {
  (* ToBoolean on a number: false for +0, -0 and NaN *)
  number_truthy : number -> bool;
  (* Number.prototype.toString() *)
  Number_toString : number -> string;
  (* JSON.stringify on a value for which it returns a string *)
  JSON_stringify : JsVal number -> string
}.

(** What a [throw] carries: [new Error(message)], or the [TypeError] the
    engine raises on a bad property read or call. *)
Inductive Exn : Type :=
| Error (message : string)
| TypeError.

Inductive Outcome (A : Type) : Type :=
| Ok (a : A)
| Throw (e : Exn).

Arguments Ok {A} a.
Arguments Throw {A} e.

(** The values [uuidv4()] returns, in call order. *)
Definition IdSource : Type := nat -> string.

(** Computations that may throw and may draw identifiers. *)
Definition M (A : Type) : Type := IdSource -> Outcome A * IdSource.

Definition ret {A} (a : A) : M A := fun ids => (Ok a, ids).

Definition throw {A} (e : Exn) : M A := fun ids => (Throw e, ids).

Definition bind {A B} (m : M A) (k : A -> M B) : M B :=
  fun ids =>
    match m ids with
    | (Ok a, ids') => k a ids'
    | (Throw e, ids') => (Throw e, ids')
    end.

Definition uuidv4 : M string :=
  fun ids => (Ok (ids 0), fun n => ids (S n)).

Declare Scope js_scope.
Delimit Scope js_scope with js.
Notation "x <- m ;; k" := (bind m (fun x => k))
  (at level 61, m at next level, right associativity) : js_scope.
Notation "'when' c 'then' m ;; k" := (bind (if c then m else ret tt) (fun _ => k))
  (at level 61, c at next level, m at next level, right associativity) : js_scope.

(* ================================================================= *)
(** ** Strings

    A [string] stands for a sequence of code units below 256 (Latin-1). *)

Definition dquote : string := String (ascii_of_nat 34) EmptyString.

(** [String.prototype.toLowerCase] on one code unit: A-Z, and the upper-case
    letters U+00C0..U+00DE apart from the multiplication sign U+00D7. *)
Definition lower_char (c : ascii) : ascii :=
  let n := nat_of_ascii c in
  if (((65 <=? n) && (n <=? 90)) || ((192 <=? n) && (n <=? 222) && negb (n =? 215)))%nat
  then ascii_of_nat (n + 32)%nat
  else c.

Fixpoint toLowerCase (s : string) : string :=
  match s with
  | EmptyString => EmptyString
  | String c r => String (lower_char c) (toLowerCase r)
  end.

(** The class [\s] of a regular expression: TAB, LF, VT, FF, CR, SP, NBSP. *)
Definition is_space (c : ascii) : bool :=
  let n := nat_of_ascii c in
  (((9 <=? n) && (n <=? 13)) || (n =? 32) || (n =? 160))%nat.

(** [s.replace(/\s+/g, '-')]: [in_run] says that the previous code unit was
    part of the match being replaced. *)
Fixpoint replace_spaces_from (in_run : bool) (s : string) : string :=
  match s with
  | EmptyString => EmptyString
  | String c r =>
      if is_space c
      then (if in_run then replace_spaces_from true r
            else String "-" (replace_spaces_from true r))
      else String c (replace_spaces_from false r)
  end.

Definition replace_spaces (s : string) : string := replace_spaces_from false s.

(** A template literal's rendering of an array index. *)
Definition index_toString (n : nat) : string :=
  NilEmpty.string_of_uint (Nat.to_uint n).

(* ================================================================= *)
(** ** The descriptor *)

Record ParameterConfig (number : Type) : Type := {
  param_name : string;
  param_type : string;
  param_description : string;
  param_required : bool;
  param_defaultValue : option (JsVal number)
}.

Record ToolConfig (number : Type) : Type := {
  tool_name : string;
  tool_description : string;
  tool_parameters : list (ParameterConfig number);
  tool_implementation : string;
  tool_returnType : string
}.

Inductive ResourceType : Type := text | binary | json.

Record ResourceConfig : Type := {
  resource_name : string;
  resource_type : ResourceType;
  resource_content : string;
  resource_isEmbedded : bool
}.

Record PromptConfig : Type := {
  prompt_name : string;
  prompt_content : string;
  prompt_variables : list string
}.

Inductive IsolationLevel : Type := process | container | vm.

Record ResourceLimits : Type := {
  memory : Z;      (* MB *)
  cpu : Z;         (* cores *)
  timeLimit : Z    (* seconds *)
}.

Record TEEConfig : Type := {
  isolationLevel : IsolationLevel;
  resourceLimits : ResourceLimits;
  networkAccess : bool;
  fileSystemAccess : bool
}.

Inductive AgentType : Type := llm | sequential | parallel | loop.

Inductive BuildTarget : Type := wasm | go_target.

(** [agent_name] and [description] are declared [string]; at run time they
    receive whatever truthy value the input holds, so they are values.  The
    three sequences are the ones the code guards with [||=]: [None] is a
    missing (null or undefined) array. *)
Record AgentPluginConfig (number : Type) : Type := {
  agent_id : string;
  agent_name : JsVal number;
  agentType : AgentType;
  description : JsVal number;
  version : string;
  facts_url : string;
  private_facts_url : option string;
  adaptive_router_url : option string;
  ttl : Z;
  signature : string;
  buildTarget : option BuildTarget;
  tools : option (list (ToolConfig number));
  resources : option (list ResourceConfig);
  prompts : option (list PromptConfig);
  pythonDependencies : list string;
  useChromemGo : bool;
  subAgentCapabilities : bool;
  trustedExecutionEnvironment : TEEConfig
}.

(** [(arr ||= []).push(x)] *)
Definition or_assign_push {A} (arr : option (list A)) (x : A) : option (list A) :=
  match arr with
  | Some l => Some (l ++ [x])%list
  | None => Some [x]
  end.

Definition set_tools {number} (c : AgentPluginConfig number)
    (ts : option (list (ToolConfig number))) : AgentPluginConfig number :=
  {| agent_id := agent_id c; agent_name := agent_name c; agentType := agentType c;
     description := description c; version := version c; facts_url := facts_url c;
     private_facts_url := private_facts_url c;
     adaptive_router_url := adaptive_router_url c;
     ttl := ttl c; signature := signature c; buildTarget := buildTarget c;
     tools := ts;
     resources := resources c; prompts := prompts c;
     pythonDependencies := pythonDependencies c; useChromemGo := useChromemGo c;
     subAgentCapabilities := subAgentCapabilities c;
     trustedExecutionEnvironment := trustedExecutionEnvironment c |}.

Definition set_resources {number} (c : AgentPluginConfig number)
    (rs : option (list ResourceConfig)) : AgentPluginConfig number :=
  {| agent_id := agent_id c; agent_name := agent_name c; agentType := agentType c;
     description := description c; version := version c; facts_url := facts_url c;
     private_facts_url := private_facts_url c;
     adaptive_router_url := adaptive_router_url c;
     ttl := ttl c; signature := signature c; buildTarget := buildTarget c;
     tools := tools c;
     resources := rs; prompts := prompts c;
     pythonDependencies := pythonDependencies c; useChromemGo := useChromemGo c;
     subAgentCapabilities := subAgentCapabilities c;
     trustedExecutionEnvironment := trustedExecutionEnvironment c |}.

(** [(agentConfig.tools ||= []).push(t)] *)
Definition push_tool {number} (c : AgentPluginConfig number) (t : ToolConfig number)
  : AgentPluginConfig number :=
  set_tools c (or_assign_push (tools c) t).

(** [(agentConfig.resources ||= []).push(r)] *)
Definition push_resource {number} (c : AgentPluginConfig number) (r : ResourceConfig)
  : AgentPluginConfig number :=
  set_resources c (or_assign_push (resources c) r).

(* ================================================================= *)
(** ** Dynamic semantics of the accesses the converter performs *)

Section Semantics.
Context {number : Type} {host : Host number}.

(** ToBoolean *)
Definition truthy (v : JsVal number) : bool :=
  match v with
  | JUndefined | JNull => false
  | JBool b => b
  | JNum n => number_truthy n
  | JStr EmptyString => false
  | JStr (String _ _) => true
  | JArr _ | JObj _ => true
  end.

(** [typeof v === 'object'] *)
Definition typeof_object (v : JsVal number) : bool :=
  match v with
  | JNull | JArr _ | JObj _ => true
  | _ => false
  end.

Fixpoint own_property (props : list (string * JsVal number)) (key : string)
  : option (JsVal number) :=
  match props with
  | [] => None
  | (k, v) :: rest => if String.eqb k key then Some v else own_property rest key
  end.

(** [o.key], for the keys this file reads: none of them is an index or a
    property of a built-in prototype, so only an object's own properties
    can answer; reading a property of [null] or [undefined] throws. *)
Definition get (o : JsVal number) (key : string) : M (JsVal number) :=
  match o with
  | JUndefined | JNull => throw TypeError
  | JObj props =>
      match own_property props key with
      | Some v => ret v
      | None => ret JUndefined
      end
  | JBool _ | JNum _ | JStr _ | JArr _ => ret JUndefined
  end.

Definition join_comma (parts : list string) : string := String.concat "," parts.

Fixpoint sequence {A} (l : list (option A)) : option (list A) :=
  match l with
  | [] => Some []
  | None :: _ => None
  | Some a :: rest =>
      match sequence rest with
      | Some r => Some (a :: r)
      | None => None
      end
  end.

(** The abstract operation ToString; [None] is a [TypeError].  An array is
    joined with commas, [null] and [undefined] elements giving the empty
    string; an object answers through [Object.prototype.toString] unless an
    own (hence non-callable) [toString] shadows it. *)
Fixpoint ToString (v : JsVal number) : option string :=
  match v with
  | JUndefined => Some "undefined"
  | JNull => Some "null"
  | JBool true => Some "true"
  | JBool false => Some "false"
  | JNum n => Some (Number_toString n)
  | JStr s => Some s
  | JArr l =>
      option_map join_comma
        (sequence (map (fun e => match e with
                                 | JUndefined | JNull => Some EmptyString
                                 | _ => ToString e
                                 end) l))
  | JObj props =>
      match own_property props "toString" with
      | Some _ => None
      | None => Some "[object Object]"
      end
  end.

(** [v.toString()] *)
Definition call_toString (v : JsVal number) : M string :=
  match v with
  | JUndefined | JNull => throw TypeError
  | _ => match ToString v with
         | Some s => ret s
         | None => throw TypeError
         end
  end.

(** [v.toLowerCase()]: only strings have the method. *)
Definition call_toLowerCase (v : JsVal number) : M string :=
  match v with
  | JStr s => ret (toLowerCase s)
  | _ => throw TypeError
  end.

(** A template literal's rendering of a value. *)
Definition template_value (v : JsVal number) : M string :=
  match ToString v with
  | Some s => ret s
  | None => throw TypeError
  end.

End Semantics.

(* ================================================================= *)
(** ** The configuration normalizer *)

Section Normalizer.
Context {number : Type} {host : Host number}.
Local Open Scope js_scope.

(** The fixed catalog of built-in tools. *)
Definition chat_tool : ToolConfig number :=
  {| tool_name := "chat";
     tool_description := "Chat with the user";
     tool_implementation := "return { message: input }";
     tool_parameters :=
       [ {| param_name := "input"; param_type := "string";
            param_description := "The user input"; param_required := true;
            param_defaultValue := None |} ];
     tool_returnType := "object" |}.

Definition automate_tool : ToolConfig number :=
  {| tool_name := "automate";
     tool_description := "Automate a task";
     tool_implementation :=
       "return { success: true, taskId: " ++ dquote ++ "task-123" ++ dquote ++ " }";
     tool_parameters :=
       [ {| param_name := "task"; param_type := "string";
            param_description := "The task to automate"; param_required := true;
            param_defaultValue := None |} ];
     tool_returnType := "object" |}.

Definition analyze_tool : ToolConfig number :=
  {| tool_name := "analyze";
     tool_description := "Analyze data";
     tool_implementation :=
       "return { insights: [" ++ dquote ++ "Insight 1" ++ dquote ++ ", "
         ++ dquote ++ "Insight 2" ++ dquote ++ "] }";
     tool_parameters :=
       [ {| param_name := "data"; param_type := "string";
            param_description := "The data to analyze"; param_required := true;
            param_defaultValue := None |} ];
     tool_returnType := "object" |}.

Definition default_tee : TEEConfig :=
  {| isolationLevel := process;
     resourceLimits := {| memory := 512; cpu := 1; timeLimit := 60 |};
     networkAccess := true;
     fileSystemAccess := false |}.

Definition is_undefined (v : JsVal number) : bool :=
  match v with
  | JUndefined => true
  | _ => false
  end.

(** "Add features as tools" *)
Definition add_feature_tools (agentFeatures : JsVal number)
    (agentConfig : AgentPluginConfig number) : M (AgentPluginConfig number) :=
  if truthy agentFeatures then
    chat <- get agentFeatures "chat" ;;
    let agentConfig :=
      if truthy chat then push_tool agentConfig chat_tool else agentConfig in
    automation <- get agentFeatures "automation" ;;
    let agentConfig :=
      if truthy automation then push_tool agentConfig automate_tool else agentConfig in
    analytics <- get agentFeatures "analytics" ;;
    let agentConfig :=
      if truthy analytics then push_tool agentConfig analyze_tool else agentConfig in
    ret agentConfig
  else ret agentConfig.

Definition mcp_server_resource (server : JsVal number) (index : nat) : ResourceConfig :=
  {| resource_name := "mcp_server_" ++ index_toString index;
     resource_type := json;
     resource_content := JSON_stringify server;
     resource_isEmbedded := true |}.

(** [mcpServers.forEach((server, index) => ...)], from position [index] on. *)
Fixpoint forEach_mcpServer (servers : list (JsVal number)) (index : nat)
    (agentConfig : AgentPluginConfig number) : M (AgentPluginConfig number) :=
  match servers with
  | [] => ret agentConfig
  | server :: rest =>
      enabled <- get server "enabled" ;;
      forEach_mcpServer rest (S index)
        (if truthy enabled
         then push_resource agentConfig (mcp_server_resource server index)
         else agentConfig)
  end.

(** "Add MCP servers as resources" *)
Definition add_mcp_servers (agentSettings : JsVal number)
    (agentConfig : AgentPluginConfig number) : M (AgentPluginConfig number) :=
  mcpServers <- (if truthy agentSettings then get agentSettings "mcpServers"
                 else ret agentSettings) ;;
  if truthy mcpServers then
    match mcpServers with
    | JArr servers => forEach_mcpServer servers 0 agentConfig
    | _ => throw TypeError          (* [forEach] is not a function *)
    end
  else ret agentConfig.

Definition creativity_resource (content : string) : ResourceConfig :=
  {| resource_name := "creativity_parameter";
     resource_type := text;
     resource_content := content;
     resource_isEmbedded := true |}.

(** "Set creativity as a parameter" *)
Definition add_creativity (agentSettings : JsVal number)
    (agentConfig : AgentPluginConfig number) : M (AgentPluginConfig number) :=
  if truthy agentSettings then
    creativity <- get agentSettings "creativity" ;;
    if negb (is_undefined creativity) then
      content <- call_toString creativity ;;
      ret (push_resource agentConfig (creativity_resource content))
    else ret agentConfig
  else ret agentConfig.

Definition api_keys_resource (agentApiKeys : JsVal number) : ResourceConfig :=
  {| resource_name := "api_keys";
     resource_type := json;
     resource_content := JSON_stringify agentApiKeys;
     resource_isEmbedded := true |}.

(** "Add API keys as a resource" *)
Definition add_api_keys (agentApiKeys : JsVal number)
    (agentConfig : AgentPluginConfig number) : M (AgentPluginConfig number) :=
  if truthy agentApiKeys
  then ret (push_resource agentConfig (api_keys_resource agentApiKeys))
  else ret agentConfig.

(** The two [console.log] calls write to the console and cannot throw; they
    are left out. *)
Definition convertUIConfigToPluginConfig (uiConfig : JsVal number)
  : M (AgentPluginConfig number) :=
  when (negb (truthy uiConfig) || negb (typeof_object uiConfig))
  then throw (Error "Invalid UI config") ;;
  agentName <- get uiConfig "name" ;;
  existingAgentName <- get uiConfig "agent_name" ;;
  agentPersonality <- get uiConfig "personality" ;;
  agentInstructions <- get uiConfig "instructions" ;;
  agentFeatures <- get uiConfig "features" ;;
  agentApiKeys <- get uiConfig "apiKeys" ;;
  agentSettings <- get uiConfig "settings" ;;
  when (negb (truthy agentName) || negb (truthy agentPersonality)
        || negb (truthy agentInstructions) || negb (truthy agentSettings))
  then throw (Error "Missing required UI config fields") ;;
  agentId <- uuidv4 ;;
  the_agent_name <-
    (if truthy existingAgentName then ret existingAgentName
     else lowered <- call_toLowerCase agentName ;;
          ret (JStr ("urn:agent:agentify:" ++ replace_spaces lowered))) ;;
  the_description <-
    (if truthy agentInstructions then ret agentInstructions
     else shown <- template_value agentName ;;
          ret (JStr (shown ++ " is a helpful AI assistant."))) ;;
  let agentConfig :=
    {| agent_id := agentId;
       agent_name := the_agent_name;
       agentType := llm;
       description := the_description;
       version := "1.0.0";
       facts_url := "https://agentify.example.com/agents/" ++ agentId;
       private_facts_url := None;
       adaptive_router_url := None;
       ttl := 3600;
       signature := "placeholder-signature";
       buildTarget := None;
       tools := Some [];
       resources := Some [];
       prompts := Some [];
       pythonDependencies := [];
       useChromemGo := true;
       subAgentCapabilities := false;
       trustedExecutionEnvironment := default_tee |} in
  agentConfig <- add_feature_tools agentFeatures agentConfig ;;
  agentConfig <- add_mcp_servers agentSettings agentConfig ;;
  agentConfig <- add_creativity agentSettings agentConfig ;;
  agentConfig <- add_api_keys agentApiKeys agentConfig ;;
  ret agentConfig.

End Normalizer.

(* ================================================================= *)
(** ** Reading the input without effects, and the shape of a valid input *)

Section Inputs.
Context {number : Type} {host : Host number}.

(** The value [x.key] of a value that is neither [null] nor [undefined]. *)
Definition field (x : JsVal number) (key : string) : JsVal number :=
  match x with
  | JObj props =>
      match own_property props key with
      | Some v => v
      | None => JUndefined
      end
  | _ => JUndefined
  end.

Definition is_nullish (v : JsVal number) : bool :=
  match v with
  | JUndefined | JNull => true
  | _ => false
  end.

Definition is_string (v : JsVal number) : bool :=
  match v with
  | JStr _ => true
  | _ => false
  end.

Definition is_boolean (v : JsVal number) : bool :=
  match v with
  | JBool _ => true
  | _ => false
  end.

Definition is_number (v : JsVal number) : bool :=
  match v with
  | JNum _ => true
  | _ => false
  end.

Definition is_plain_object (v : JsVal number) : bool :=
  match v with
  | JObj _ => true
  | _ => false
  end.

Definition optional (p : JsVal number -> bool) (v : JsVal number) : bool :=
  is_undefined v || p v.

(** [interface MCPServerConfig] *)
Definition is_MCPServerConfig (v : JsVal number) : bool :=
  is_plain_object v && is_string (field v "url") && is_string (field v "name")
  && is_boolean (field v "enabled").

(** The type of [UIConfig.settings] *)
Definition is_settings (v : JsVal number) : bool :=
  is_plain_object v
  && match field v "mcpServers" with
     | JArr servers => forallb is_MCPServerConfig servers
     | _ => false
     end
  && optional is_number (field v "creativity").

(** The type of [UIConfig.apiKeys] *)
Definition is_apiKeys (v : JsVal number) : bool :=
  is_plain_object v
  && is_string (field v "openai") && is_string (field v "anthropic")
  && is_string (field v "google") && is_string (field v "cerebras")
  && is_string (field v "deepseek").

(** A valid input: an object with the types [interface UIConfig] gives to the
    properties the converter reads, and the four validated properties
    non-empty.  [features] is a [Record<string, unknown>]; it may be missing,
    as the converter guards its use.  [tools] and [resources] are free. *)
Definition valid_input (x : JsVal number) : bool :=
  is_plain_object x
  && is_string (field x "name") && truthy (field x "name")
  && optional is_string (field x "agent_name")
  && is_string (field x "personality") && truthy (field x "personality")
  && is_string (field x "instructions") && truthy (field x "instructions")
  && optional is_plain_object (field x "features")
  && optional is_apiKeys (field x "apiKeys")
  && is_settings (field x "settings").

(** The outcome of a run, the identifier source left aside. *)
Definition result_of {A} (m : M A) (ids : IdSource) : Outcome A := fst (m ids).

(* ----------------------------------------------------------------- *)
(** *** What the specification says the converter builds *)

(** The catalog: feature flag, and the tool it stands for. *)
Definition catalog : list (string * ToolConfig number) :=
  [ ("chat", chat_tool); ("automation", automate_tool); ("analytics", analyze_tool) ].

(** Order-preserving expansion of the enabled flags over the catalog. *)
Definition feature_expansion (features : JsVal number) : list (ToolConfig number) :=
  map snd (filter (fun entry => truthy features && truthy (field features (fst entry)))
                  catalog).

(** The servers of a list with their positions, from [start] on. *)
Definition indexed_from (start : nat) (servers : list (JsVal number))
  : list (nat * JsVal number) :=
  combine (seq start (length servers)) servers.

(** One resource per enabled server, named after the server's position. *)
Definition mcp_resources_from (start : nat) (servers : list (JsVal number))
  : list ResourceConfig :=
  map (fun entry => mcp_server_resource (snd entry) (fst entry))
      (filter (fun entry => truthy (field (snd entry) "enabled"))
              (indexed_from start servers)).

(** The servers the converter walks: none when [mcpServers] is falsy. *)
Definition servers_of (settings : JsVal number) : list (JsVal number) :=
  match field settings "mcpServers" with
  | JArr servers => servers
  | _ => []
  end.

(** The maximal runs of a string: each run holds only white space or only
    other code units, and neighbouring runs differ in kind. *)
Fixpoint runs (s : string) : list (bool * string) :=
  match s with
  | EmptyString => []
  | String c r =>
      match runs r with
      | (kind, run) :: rest =>
          if Bool.eqb kind (is_space c)
          then (kind, String c run) :: rest
          else (is_space c, String c EmptyString) :: (kind, run) :: rest
      | [] => [(is_space c, String c EmptyString)]
      end
  end.

(** Every white-space run replaced by one hyphen. *)
Definition render_runs (rs : list (bool * string)) : string :=
  fold_right String.append EmptyString
    (map (fun r : bool * string => if fst r then "-" else snd r) rs).

Definition hyphenate (s : string) : string := render_runs (runs s).

(** The property names of a descriptor object. *)
Definition descriptor_keys : list string :=
  [ "agent_id"; "agent_name"; "agentType"; "description"; "version"; "facts_url";
    "private_facts_url"; "adaptive_router_url"; "ttl"; "signature"; "buildTarget";
    "tools"; "resources"; "prompts"; "pythonDependencies"; "useChromemGo";
    "subAgentCapabilities"; "trustedExecutionEnvironment" ].

(* ----------------------------------------------------------------- *)
(** *** The converter in closed form *)

(** The guard before the identifier is drawn. *)
Definition passes_validation (x : JsVal number) : bool :=
  truthy (field x "name") && truthy (field x "personality")
  && truthy (field x "instructions") && truthy (field x "settings").

(** [existingAgentName || `urn:agent:agentify:${...}`]; [None] is the
    [TypeError] of calling [toLowerCase] on a value that is not a string. *)
Definition agent_name_of (x : JsVal number) : option (JsVal number) :=
  if truthy (field x "agent_name") then Some (field x "agent_name")
  else match field x "name" with
       | JStr s => Some (JStr ("urn:agent:agentify:" ++ replace_spaces (toLowerCase s)))
       | _ => None
       end.

(** The servers [forEach] walks without throwing. *)
Definition walkable_servers (settings : JsVal number) : option (list (JsVal number)) :=
  if truthy (field settings "mcpServers") then
    match field settings "mcpServers" with
    | JArr servers =>
        if forallb (fun server => negb (is_nullish server)) servers
        then Some servers else None
    | _ => None
    end
  else Some [].

Definition creativity_resources (settings : JsVal number)
  : option (list ResourceConfig) :=
  match field settings "creativity" with
  | JUndefined => Some []
  | JNull => None
  | v => option_map (fun content => [creativity_resource content]) (ToString v)
  end.

Definition api_key_resources (apiKeys : JsVal number) : list ResourceConfig :=
  if truthy apiKeys then [api_keys_resource apiKeys] else [].

(** The descriptor built once validation has passed and [agentId] is drawn. *)
Definition built_descriptor (agentId : string) (x : JsVal number)
  : Outcome (AgentPluginConfig number) :=
  match agent_name_of x,
        walkable_servers (field x "settings"),
        creativity_resources (field x "settings") with
  | Some the_agent_name, Some servers, Some creativity =>
      Ok {| agent_id := agentId;
            agent_name := the_agent_name;
            agentType := llm;
            description := field x "instructions";
            version := "1.0.0";
            facts_url := "https://agentify.example.com/agents/" ++ agentId;
            private_facts_url := None;
            adaptive_router_url := None;
            ttl := 3600;
            signature := "placeholder-signature";
            buildTarget := None;
            tools := Some (feature_expansion (field x "features"));
            resources := Some (mcp_resources_from 0 servers ++ creativity
                               ++ api_key_resources (field x "apiKeys"))%list;
            prompts := Some [];
            pythonDependencies := [];
            useChromemGo := true;
            subAgentCapabilities := false;
            trustedExecutionEnvironment := default_tee |}
  | _, _, _ => Throw TypeError
  end.

(** Two objects that hold the same value under every key outside [keys]. *)
Definition agree_outside (keys : list string) (x y : JsVal number) : Prop :=
  forall key, ~ In key keys -> field x key = field y key.

End Inputs.

(* ================================================================= *)
(** ** The service factory *)

(** [process.env]: a variable is a string or is not set. *)
Record ProcessEnv : Type := {
  NETLIFY : option string;
  VERCEL : option string;
  AWS_LAMBDA_FUNCTION_NAME : option string;
  NODE_ENV : option string
}.

Definition env_truthy (v : option string) : bool :=
  match v with
  | Some (String _ _) => true
  | _ => false
  end.

(** What [compiler.checkToolchain()] resolves to. *)
Record Toolchain : Type := {
  go : bool;
  python : bool;
  gcc : bool
}.

(** The surroundings of one call of the factory: the environment, the file
    system, and the behaviour of the [AgentCompiler] class, which lives in
    another module. *)
Record World : Type := {
  env : ProcessEnv;
  cwd : string;
  existsSync : string -> bool;
  mkdirSync_result : string -> Outcome unit;
  import_AgentCompiler : Outcome unit;
  new_AgentCompiler : Outcome unit;
  checkToolchain_result : Outcome Toolchain;
  installToolchain_result : Outcome unit
}.

(** What the factory does to the outside, in order. *)
Inductive Event : Type :=
| MkdirSync (path : string)
| WarnOutputDir
| NewAgentCompiler (appRoot templateDir outputDir : string)
| CheckToolchain
| WarnMissingToolchain (go_ok python_ok gcc_ok : bool)
| LogAttemptInstall
| InstallToolchain
| ErrorInstallFailed
| LogFallbackMock.

(** The values the returned closures capture. *)
Record Service : Type := {
  defaultTemplateDir : string;
  defaultOutputDir : string
}.

(** A run: the events so far and how it ended. *)
Definition Tr (A : Type) : Type := (list Event * Outcome A)%type.

Definition tr_ret {A} (a : A) : Tr A := ([], Ok a).

Definition tr_bind {A B} (m : Tr A) (k : A -> Tr B) : Tr B :=
  match m with
  | (events, Ok a) => let (events', o) := k a in ((events ++ events')%list, o)
  | (events, Throw e) => (events, Throw e)
  end.

Definition emit (e : Event) : Tr unit := ([e], Ok tt).

Definition effect {A} (o : Outcome A) : Tr A := ([], o).

(** [try { body } catch (error) { handler }] *)
Definition try_catch {A} (body : Tr A) (handler : Exn -> Tr A) : Tr A :=
  match body with
  | (events, Ok a) => (events, Ok a)
  | (events, Throw e) => let (events', o) := handler e in ((events ++ events')%list, o)
  end.

Declare Scope trace_scope.
Delimit Scope trace_scope with trace.
Notation "x <- m ;; k" := (tr_bind m (fun x => k))
  (at level 61, m at next level, right associativity) : trace_scope.
Notation "'when' c 'then' m ;; k" :=
  (tr_bind (if c then m else tr_ret tt) (fun _ => k))
  (at level 61, c at next level, m at next level, right associativity) : trace_scope.

(** [path.join] on segments that are already normalised. *)
Definition path_join (segments : list string) : string := String.concat "/" segments.

Definition mkdirSync (w : World) (path : string) : Tr unit :=
  tr_bind (emit (MkdirSync path)) (fun _ => effect (mkdirSync_result w path)).

Definition is_production (w : World) : bool :=
  match NODE_ENV (env w) with
  | Some v => String.eqb v "production"
  | None => false
  end.

Definition tmp_output : string := path_join ["/tmp"; "agentify-output"].

(** The factory up to and including [new AgentCompiler(...)]: the default
    directories, the creation of the output directory with its fall-back to
    the temporary directory, and the compiler instance.  The result holds the
    two directories the returned closures capture. *)
Definition set_up_compiler (w : World) : Tr Service :=
  (_ <- effect (import_AgentCompiler w) ;;
   let appRoot := cwd w in
   let defaultTemplateDir := path_join [appRoot; "src"; "lib"; "compiler"; "templates"] in
   let defaultOutputDir :=
     if env_truthy (NETLIFY (env w)) || env_truthy (VERCEL (env w))
        || env_truthy (AWS_LAMBDA_FUNCTION_NAME (env w))
     then tmp_output
     else path_join [appRoot; "public"; "output"] in
   defaultOutputDir <-
     try_catch
       (when (negb (existsSync w defaultOutputDir))
        then mkdirSync w defaultOutputDir ;;
        tr_ret defaultOutputDir)
       (fun error =>
          _ <- emit WarnOutputDir ;;
          let defaultOutputDir := tmp_output in
          when (negb (existsSync w defaultOutputDir))
          then mkdirSync w defaultOutputDir ;;
          tr_ret defaultOutputDir) ;;
   _ <- emit (NewAgentCompiler appRoot defaultTemplateDir defaultOutputDir) ;;
   _ <- effect (new_AgentCompiler w) ;;
   tr_ret {| defaultTemplateDir := defaultTemplateDir;
             defaultOutputDir := defaultOutputDir |})%trace.

(** "Check toolchain availability" *)
Definition check_toolchain_availability (w : World) : Tr unit :=
  (_ <- emit CheckToolchain ;;
   toolchain <- effect (checkToolchain_result w) ;;
   when (negb (go toolchain) || negb (python toolchain))
   then (_ <- emit (WarnMissingToolchain (go toolchain) (python toolchain) (gcc toolchain)) ;;
         when (negb (is_production w))
         then (_ <- emit LogAttemptInstall ;;
               try_catch
                 (_ <- emit InstallToolchain ;;
                  effect (installToolchain_result w))
                 (fun error =>
                    _ <- emit ErrorInstallFailed ;;
                    emit LogFallbackMock)) ;;
         tr_ret tt) ;;
   tr_ret tt)%trace.

Definition createAgentCompilerService (w : World) : Tr Service :=
  (service <- set_up_compiler w ;;
   _ <- check_toolchain_availability w ;;
   tr_ret service)%trace.

(** The events of [set_up_compiler]. *)
Definition is_setup_event (e : Event) : bool :=
  match e with
  | MkdirSync _ | WarnOutputDir | NewAgentCompiler _ _ _ => true
  | _ => false
  end.

(* ================================================================= *)
(** ** A host with integer numbers, and sample inputs *)

Definition Z_toString (z : Z) : string := NilZero.string_of_int (Z.to_int z).

Definition backslash : string := String (ascii_of_nat 92) EmptyString.

Fixpoint json_escape (s : string) : string :=
  match s with
  | EmptyString => EmptyString
  | String c r =>
      if (nat_of_ascii c =? 34)%nat || (nat_of_ascii c =? 92)%nat
      then backslash ++ String c (json_escape r)
      else String c (json_escape r)
  end.

Definition json_quote (s : string) : string := dquote ++ json_escape s ++ dquote.

(** [JSON.stringify] on integers, booleans, [null], strings without control
    characters, arrays and objects; a property holding [undefined] is left
    out, an [undefined] array element is written [null]. *)
Fixpoint json_text (v : JsVal Z) : string :=
  match v with
  | JUndefined | JNull => "null"
  | JBool true => "true"
  | JBool false => "false"
  | JNum z => Z_toString z
  | JStr s => json_quote s
  | JArr l => "[" ++ String.concat "," (map json_text l) ++ "]"
  | JObj props =>
      "{" ++ String.concat ","
               (flat_map (fun p : string * JsVal Z =>
                            let (k, x) := p in
                            match x with
                            | JUndefined => []
                            | _ => [json_quote k ++ ":" ++ json_text x]
                            end) props)
          ++ "}"
  end.

#[export] Instance Z_host : Host Z := {
  number_truthy := fun z => negb (z =? 0)%Z;
  Number_toString := Z_toString;
  JSON_stringify := json_text
}.

(** An identifier source with pairwise distinct identifiers. *)
Definition sample_ids : IdSource := fun n => "id-" ++ index_toString n.

(** End-to-end scenario A of the specification. *)
Definition scenario_A : JsVal Z :=
  JObj [ ("name", JStr "Starbucks Helper");
         ("personality", JStr "friendly");
         ("instructions", JStr "help customers");
         ("settings", JObj [ ("mcpServers", JArr []) ]);
         ("features", JObj [ ("chat", JBool true) ]) ].

(** End-to-end scenario B. *)
Definition scenario_B : JsVal Z :=
  JObj [ ("name", JStr "Starbucks Helper");
         ("personality", JStr "friendly");
         ("instructions", JStr "help customers");
         ("settings", JObj [ ("mcpServers", JArr []) ]);
         ("features", JObj [ ("chat", JBool true); ("automation", JBool true);
                             ("analytics", JBool true) ]) ].

(** Scenario A without the [features] key. *)
Definition scenario_no_features : JsVal Z :=
  JObj [ ("name", JStr "Starbucks Helper");
         ("personality", JStr "friendly");
         ("instructions", JStr "help customers");
         ("settings", JObj [ ("mcpServers", JArr []) ]) ].

Definition sample_server (name : string) (enabled : bool) : JsVal Z :=
  JObj [ ("url", JStr ("https://" ++ name ++ ".example.com"));
         ("name", JStr name);
         ("enabled", JBool enabled) ].

(** An input with every auxiliary setting: three servers of which the second
    is disabled, a creativity value, API keys, and caller-supplied [tools]. *)
Definition scenario_full : JsVal Z :=
  JObj [ ("name", JStr "Data  Helper");
         ("agent_name", JStr "urn:agent:acme:data");
         ("personality", JStr "precise");
         ("instructions", JStr "analyse tables");
         ("features", JObj [ ("analytics", JBool true); ("voice", JBool true) ]);
         ("apiKeys", JObj [ ("openai", JStr "k1"); ("anthropic", JStr "k2");
                            ("google", JStr "k3"); ("cerebras", JStr "k4");
                            ("deepseek", JStr "k5") ]);
         ("settings", JObj [ ("mcpServers",
                              JArr [ sample_server "a" true; sample_server "b" false;
                                     sample_server "c" true ]);
                             ("creativity", JNum 7%Z) ]);
         ("tools", JArr [ JObj [ ("name", JStr "shell") ] ]) ].

(** [scenario_full] with caller-supplied [resources] in place of [tools]. *)
Definition scenario_full_variant : JsVal Z :=
  JObj [ ("name", JStr "Data  Helper");
         ("agent_name", JStr "urn:agent:acme:data");
         ("personality", JStr "precise");
         ("instructions", JStr "analyse tables");
         ("features", field scenario_full "features");
         ("apiKeys", field scenario_full "apiKeys");
         ("settings", field scenario_full "settings");
         ("resources", JArr [ JObj [ ("name", JStr "secret") ] ]) ].

(** A world in which only [gcc] is missing. *)
Definition world_without_gcc : World :=
  {| env := {| NETLIFY := None; VERCEL := None; AWS_LAMBDA_FUNCTION_NAME := None;
               NODE_ENV := Some "development" |};
     cwd := "/app";
     existsSync := fun _ => true;
     mkdirSync_result := fun _ => Ok tt;
     import_AgentCompiler := Ok tt;
     new_AgentCompiler := Ok tt;
     checkToolchain_result := Ok {| go := true; python := true; gcc := false |};
     installToolchain_result := Ok tt |}.

(** A development world in which [go] is missing and the install fails. *)
Definition world_install_fails : World :=
  {| env := {| NETLIFY := None; VERCEL := None; AWS_LAMBDA_FUNCTION_NAME := None;
               NODE_ENV := Some "development" |};
     cwd := "/app";
     existsSync := fun _ => true;
     mkdirSync_result := fun _ => Ok tt;
     import_AgentCompiler := Ok tt;
     new_AgentCompiler := Ok tt;
     checkToolchain_result := Ok {| go := false; python := true; gcc := true |};
     installToolchain_result := Throw (Error "install failed") |}.

(** A world that differs in what [installToolchain] does. *)
Definition with_installToolchain_result (w : World) (r : Outcome unit) : World :=
  {| env := env w; cwd := cwd w; existsSync := existsSync w;
     mkdirSync_result := mkdirSync_result w;
     import_AgentCompiler := import_AgentCompiler w;
     new_AgentCompiler := new_AgentCompiler w;
     checkToolchain_result := checkToolchain_result w;
     installToolchain_result := r |}.

Definition is_install (e : Event) : bool :=
  match e with
  | InstallToolchain => true
  | _ => false
  end.

Definition is_missing_warning (e : Event) : bool :=
  match e with
  | WarnMissingToolchain _ _ _ => true
  | _ => false
  end.

(** The object a descriptor is, read back as a raw value. *)
Definition parameter_object (p : ParameterConfig Z) : JsVal Z :=
  JObj ([ ("name", JStr (param_name p)); ("type", JStr (param_type p));
          ("description", JStr (param_description p));
          ("required", JBool (param_required p)) ]
        ++ match param_defaultValue p with
           | Some v => [ ("defaultValue", v) ]
           | None => []
           end)%list.

Definition tool_object (t : ToolConfig Z) : JsVal Z :=
  JObj [ ("name", JStr (tool_name t)); ("description", JStr (tool_description t));
         ("implementation", JStr (tool_implementation t));
         ("parameters", JArr (map parameter_object (tool_parameters t)));
         ("returnType", JStr (tool_returnType t)) ].

Definition resource_object (r : ResourceConfig) : JsVal Z :=
  JObj [ ("name", JStr (resource_name r));
         ("type", JStr match resource_type r with
                       | text => "text"
                       | binary => "binary"
                       | json => "json"
                       end);
         ("content", JStr (resource_content r));
         ("isEmbedded", JBool (resource_isEmbedded r)) ].

Definition prompt_object (p : PromptConfig) : JsVal Z :=
  JObj [ ("name", JStr (prompt_name p)); ("content", JStr (prompt_content p));
         ("variables", JArr (map JStr (prompt_variables p))) ].

Definition tee_object (t : TEEConfig) : JsVal Z :=
  JObj [ ("isolationLevel", JStr match isolationLevel t with
                                 | process => "process"
                                 | container => "container"
                                 | vm => "vm"
                                 end);
         ("resourceLimits",
          JObj [ ("memory", JNum (memory (resourceLimits t)));
                 ("cpu", JNum (cpu (resourceLimits t)));
                 ("timeLimit", JNum (timeLimit (resourceLimits t))) ]);
         ("networkAccess", JBool (networkAccess t));
         ("fileSystemAccess", JBool (fileSystemAccess t)) ].

Definition array_or_null {A} (f : A -> JsVal Z) (l : option (list A)) : JsVal Z :=
  match l with
  | Some items => JArr (map f items)
  | None => JNull
  end.

Definition descriptor_object (d : AgentPluginConfig Z) : JsVal Z :=
  JObj [ ("agent_id", JStr (agent_id d));
         ("agent_name", agent_name d);
         ("agentType", JStr match agentType d with
                            | llm => "llm"
                            | sequential => "sequential"
                            | parallel => "parallel"
                            | loop => "loop"
                            end);
         ("description", description d);
         ("version", JStr (version d));
         ("facts_url", JStr (facts_url d));
         ("ttl", JNum (ttl d));
         ("signature", JStr (signature d));
         ("tools", array_or_null tool_object (tools d));
         ("resources", array_or_null resource_object (resources d));
         ("prompts", array_or_null prompt_object (prompts d));
         ("pythonDependencies", JArr (map JStr (pythonDependencies d)));
         ("useChromemGo", JBool (useChromemGo d));
         ("subAgentCapabilities", JBool (subAgentCapabilities d));
         ("trustedExecutionEnvironment",
          tee_object (trustedExecutionEnvironment d)) ].

(* ================================================================= *)
(** ** The agent registration route ([app/api/register-agent/route.ts])

    The handlers talk to the Supabase client and to the request; both are
    outside the repository's code, so a call of a handler runs against a
    [RouteWorld] that holds their answers, and leaves the list of the calls
    it made. *)

(** What a [catch] clause receives: an [Error] with its message, or a value
    that is not an instance of [Error]. *)
Inductive Thrown : Type :=
| ThrownError (message : string)
| ThrownOther.

(** How an awaited promise settles. *)
Inductive Settled (A : Type) : Type :=
| Resolved (a : A)
| Rejected (t : Thrown).

Arguments Resolved {A} a.
Arguments Rejected {A} t.

(** A run that emits events of type [E]. *)
Definition Run (E A : Type) : Type := (list E * Settled A)%type.

Definition run_ret {E A} (a : A) : Run E A := ([], Resolved a).

Definition run_bind {E A B} (m : Run E A) (k : A -> Run E B) : Run E B :=
  match m with
  | (events, Resolved a) => let (events', o) := k a in ((events ++ events')%list, o)
  | (events, Rejected t) => (events, Rejected t)
  end.

Definition run_emit {E} (e : E) : Run E unit := ([e], Resolved tt).

Definition run_await {E A} (s : Settled A) : Run E A := ([], s).

(** [try { body } catch (err) { handler }] *)
Definition run_try {E A} (body : Run E A) (handler : Thrown -> Run E A) : Run E A :=
  match body with
  | (events, Resolved a) => (events, Resolved a)
  | (events, Rejected t) => let (events', o) := handler t in ((events ++ events')%list, o)
  end.

Declare Scope run_scope.
Delimit Scope run_scope with run.
Notation "x <- m ;; k" := (run_bind m (fun x => k))
  (at level 61, m at next level, right associativity) : run_scope.

(** The [user] of [supabase.auth.getUser]. *)
Record User : Type := {
  user_id : string
}.

(** [{ data: { user }, error }] as [supabase.auth.getUser] resolves it; an
    error is kept by its message. *)
Record AuthResponse : Type := {
  data_user : option User;
  auth_error : option string
}.

(** [{ data, error }] of a query: the rows or [null], the error or [null]. *)
Record QueryResponse (number : Type) : Type := {
  query_data : option (list (JsVal number));
  query_error : option string
}.

(** The row handed to [upsert]. *)
Record AgentConfigRow (number : Type) : Type := {
  row_user_id : string;
  row_identity : JsVal number;
  row_personality : JsVal number;
  row_capabilities : JsVal number
}.

Inductive RouteEvent (number : Type) : Type :=
| GetUser (token : string)
| RequestJson
| Upsert (row : AgentConfigRow number)
| SelectAgentConfigs (of_user : string)
| ConsoleError.

Arguments GetUser {number} token.
Arguments RequestJson {number}.
Arguments Upsert {number} row.
Arguments SelectAgentConfigs {number} of_user.
Arguments ConsoleError {number}.

(** One request and the answers it will get.  [destructure_message] is the
    message of the [TypeError] the engine raises when [null] or [undefined]
    is destructured. *)
Record RouteWorld (number : Type) : Type := {
  authorization : option string;
  getUser_result : string -> Settled AuthResponse;
  request_json : Settled (JsVal number);
  upsert_result : AgentConfigRow number -> Settled (QueryResponse number);
  select_result : string -> Settled (QueryResponse number);
  destructure_message : string
}.

(** [NextResponse.json(body, { status })], and [new NextResponse(null, ...)]. *)
Inductive Response (number : Type) : Type :=
| JsonResponse (body : JsVal number) (status : Z)
| EmptyResponse (status : Z) (headers : list (string * string)).

Arguments EmptyResponse {number} status headers.

Definition response_status {number} (r : Response number) : Z :=
  match r with
  | JsonResponse _ status => status
  | EmptyResponse status _ => status
  end.

(** [s.substring(start)] *)
Definition substring_from (start : nat) (s : string) : string :=
  String.substring start (String.length s - start) s.

Section Route.
Context {number : Type} {host : Host number}.
Local Open Scope run_scope.

Definition error_body (message : string) : JsVal number :=
  JObj [ ("error", JStr message) ].

(** [err instanceof Error ? err.message : 'Unknown error'] *)
Definition thrown_message (t : Thrown) : string :=
  match t with
  | ThrownError message => message
  | ThrownOther => "Unknown error"
  end.

(** [!authHeader || !authHeader.startsWith('Bearer ')] *)
Definition lacks_bearer (authHeader : option string) : bool :=
  match authHeader with
  | None => true
  | Some EmptyString => true
  | Some h => negb (String.prefix "Bearer " h)
  end.

(** The first lines of both handlers: the header, the token, the user.
    The result is the verified user, or the response that refuses. *)
Definition authenticate (w : RouteWorld number)
  : Run (RouteEvent number) (User + Response number) :=
  let authHeader := authorization w in
  if lacks_bearer authHeader
  then run_ret (inr (JsonResponse (error_body "Authentication required") 401))
  else
    let token := substring_from 7 (match authHeader with
                                   | Some h => h
                                   | None => EmptyString
                                   end) in
    _ <- run_emit (GetUser token) ;;
    auth <- run_await (getUser_result w token) ;;
    match auth_error auth, data_user auth with
    | None, Some user => run_ret (inl user)
    | _, _ => run_ret (inr (JsonResponse (error_body "Invalid or expired token") 401))
    end.

(** [a || {}] *)
Definition or_empty_object (a : JsVal number) : JsVal number :=
  if truthy a then a else JObj [].

(** [data?.[0]] *)
Definition first_row (data : option (list (JsVal number))) : JsVal number :=
  match data with
  | Some (row :: _) => row
  | _ => JUndefined
  end.

Definition POST (w : RouteWorld number) : Run (RouteEvent number) (Response number) :=
  run_try
    (who <- authenticate w ;;
     match who with
     | inr refusal => run_ret refusal
     | inl user =>
         _ <- run_emit RequestJson ;;
         body <- run_await (request_json w) ;;
         _ <- (if is_nullish body
               then run_await (Rejected (ThrownError (destructure_message w)))
               else run_ret tt) ;;
         let identity := field body "identity" in
         let personality := field body "personality" in
         let capabilities := field body "capabilities" in
         if negb (truthy identity) || negb (truthy personality)
         then run_ret (JsonResponse (error_body "Identity and personality are required") 400)
         else
           let row := {| row_user_id := user_id user;
                         row_identity := or_empty_object identity;
                         row_personality := or_empty_object personality;
                         row_capabilities := or_empty_object capabilities |} in
           _ <- run_emit (Upsert row) ;;
           answer <- run_await (upsert_result w row) ;;
           match query_error answer with
           | Some message =>
               _ <- run_emit ConsoleError ;;
               run_ret (JsonResponse (error_body message) 400)
           | None =>
               run_ret (JsonResponse
                          (JObj [ ("success", JBool true);
                                  ("data", first_row (query_data answer));
                                  ("message",
                                   JStr "Agent configuration saved successfully") ])
                          200)
           end
     end)
    (fun err =>
       _ <- run_emit ConsoleError ;;
       run_ret (JsonResponse (error_body (thrown_message err)) 500)).

Definition GET (w : RouteWorld number) : Run (RouteEvent number) (Response number) :=
  run_try
    (who <- authenticate w ;;
     match who with
     | inr refusal => run_ret refusal
     | inl user =>
         _ <- run_emit (SelectAgentConfigs (user_id user)) ;;
         answer <- run_await (select_result w (user_id user)) ;;
         match query_error answer with
         | Some message =>
             _ <- run_emit ConsoleError ;;
             run_ret (JsonResponse (error_body message) 400)
         | None =>
             run_ret (JsonResponse
                        (JObj [ ("success", JBool true);
                                ("data", JArr match query_data answer with
                                              | Some rows => rows
                                              | None => []
                                              end);
                                ("message",
                                 JStr "Agent configurations retrieved successfully") ])
                        200)
         end
     end)
    (fun err =>
       _ <- run_emit ConsoleError ;;
       run_ret (JsonResponse (error_body (thrown_message err)) 500)).

Definition OPTIONS : Response number :=
  EmptyResponse 200
    [ ("Access-Control-Allow-Origin", "*");
      ("Access-Control-Allow-Methods", "GET, POST, OPTIONS");
      ("Access-Control-Allow-Headers", "Content-Type, Authorization") ].


(** The answer of the [catch] clause. *)
Definition refusal_500 (t : Thrown) : Response number :=
  JsonResponse (error_body (thrown_message t)) 500.

End Route.

(* ================================================================= *)
(** ** The progress hook ([hooks/useSSE.ts])

    The hook registers closures with the [SSEManager] singleton, which is
    outside the repository's code.  The closures are modelled by what they
    call: a caller-supplied callback is present or not, and a call of it is
    recorded. *)

Record UseSSEOptions : Type := {
  onCompilationUpdate : bool;
  onDeploymentUpdate : bool;
  onMessage : bool;
  autoConnect : option bool
}.

Inductive ListenerCall (number : Type) : Type :=
| CallOnMessage (message : JsVal number)
| CallOnCompilationUpdate (update : JsVal number)
| CallOnDeploymentUpdate (update : JsVal number)
| LogConnectionConfirmed (message : JsVal number)
| LogReceived (message : JsVal number).

Inductive ManagerCall : Type :=
| Connect (accessToken : string)
| Cleanup
| Disconnect.

Section ProgressHook.
Context {number : Type} {host : Host number}.

(** [callback?.(argument)] *)
Definition optional_call (present : bool) (call : ListenerCall number)
  : list (ListenerCall number) :=
  if present then [call] else [].

(** [message.type === name] *)
Definition has_type (message : JsVal number) (name : string) : bool :=
  match field message "type" with
  | JStr t => String.eqb t name
  | _ => false
  end.

(** [message.data || { ...the same properties read from the message }] *)
Definition data_or_flat (message : JsVal number) (keys : list string) : JsVal number :=
  if truthy (field message "data") then field message "data"
  else JObj (map (fun key => (key, field message key)) keys).

(** The listener of the first effect, applied to a message object. *)
Definition messageListener (options : UseSSEOptions)
    (properties : list (string * JsVal number)) : list (ListenerCall number) :=
  let message := JObj properties in
  (optional_call (onMessage options) (CallOnMessage message)
   ++ (if has_type message "compilation_update" then
         optional_call (onCompilationUpdate options)
           (CallOnCompilationUpdate
              (data_or_flat message ["step"; "progress"; "message"; "status"; "tab"]))
       else if has_type message "deployment_update" then
         optional_call (onDeploymentUpdate options)
           (CallOnDeploymentUpdate
              (data_or_flat message ["deploymentId"; "status"; "progress"; "message"]))
       else if has_type message "connection" then [LogConnectionConfirmed message]
       else [LogReceived message]))%list.

End ProgressHook.

(** The third effect for one value of its dependencies: what it calls when it
    runs, and what its cleanup calls.  [autoConnect] defaults to [true];
    [accessToken] is [user?.accessToken]. *)
Definition autoConnect_effect (options : UseSSEOptions) (accessToken : option string)
  : list ManagerCall * list ManagerCall :=
  let autoConnect := match autoConnect options with
                     | Some b => b
                     | None => true
                     end in
  match accessToken with
  | Some (String c r) =>
      if autoConnect
      then ([Connect (String c r)], [Cleanup; Disconnect])
      else ([], [Cleanup])
  | _ => ([], [Cleanup])
  end.

(** The effect over the successive values of its dependencies: each run is
    followed by its cleanup before the next run, and at unmount. *)
Fixpoint autoConnect_lifecycle (options : UseSSEOptions)
    (accessTokens : list (option string)) : list ManagerCall :=
  match accessTokens with
  | [] => []
  | accessToken :: later =>
      (fst (autoConnect_effect options accessToken)
       ++ snd (autoConnect_effect options accessToken)
       ++ autoConnect_lifecycle options later)%list
  end.

Definition is_connect (c : ManagerCall) : bool :=
  match c with
  | Connect _ => true
  | _ => false
  end.

Definition is_disconnect (c : ManagerCall) : bool :=
  match c with
  | Disconnect => true
  | _ => false
  end.

Definition is_cleanup (c : ManagerCall) : bool :=
  match c with
  | Cleanup => true
  | _ => false
  end.

(* ================================================================= *)
(** ** The LLM tools of the plugin template (Go)

    [params] is a [map[string]interface{}]; a value of it is a string, a
    slice, a map, [nil], or a value of some other dynamic type.  The plugin's
    two generators are outside the file; the context and its time-out are
    left out. *)

#[warnings="-register-all"]
Inductive GoValue : Type :=
| GNil
| GString (s : string)
| GSlice (items : list GoValue)
| GMap (entries : list (string * GoValue))
| GOther.

(** [value, ok := m[key]] *)
Fixpoint map_index (entries : list (string * GoValue)) (key : string) : option GoValue :=
  match entries with
  | [] => None
  | (k, v) :: rest => if String.eqb k key then Some v else map_index rest key
  end.

Record LLMMessage : Type := {
  Role : string;
  Content : string
}.

(** [(value, error)]; an error is kept by its text. *)
Inductive GoResult (A : Type) : Type :=
| GoOk (a : A)
| GoErr (text : string).

Arguments GoOk {A} a.
Arguments GoErr {A} text.

Record PluginGenerators : Type := {
  GenerateText : string -> GoResult string;
  GenerateFromMessages : list LLMMessage -> GoResult string
}.

Inductive PluginCall : Type :=
| CallGenerateText (prompt : string)
| CallGenerateFromMessages (messages : list LLMMessage).

Definition text_result (response : GoResult string) : GoResult GoValue :=
  match response with
  | GoOk text_ => GoOk (GMap [ ("text", GString text_) ])
  | GoErr err => GoErr ("error generating text: " ++ err)
  end.

Definition LLMGenerateTextTool (plugin : PluginGenerators) (params : list (string * GoValue))
  : list PluginCall * GoResult GoValue :=
  match map_index params "prompt" with
  | None => ([], GoErr "missing required parameter: prompt")
  | Some (GString prompt) =>
      ([CallGenerateText prompt], text_result (GenerateText plugin prompt))
  | Some _ => ([], GoErr "parameter prompt must be a string")
  end.

(** One turn of the loop over [messagesSlice]. *)
Definition convert_message (msgRaw : GoValue) : GoResult LLMMessage :=
  match msgRaw with
  | GMap msgMap =>
      match map_index msgMap "role" with
      | None => GoErr "each message must have a role"
      | Some (GString role) =>
          match map_index msgMap "content" with
          | None => GoErr "each message must have content"
          | Some (GString content) => GoOk {| Role := role; Content := content |}
          | Some _ => GoErr "message content must be a string"
          end
      | Some _ => GoErr "message role must be a string"
      end
  | _ => GoErr "each message must be an object"
  end.

(** The loop: [messages] is what has been appended so far. *)
Fixpoint convert_messages (messagesSlice : list GoValue) (messages : list LLMMessage)
  : GoResult (list LLMMessage) :=
  match messagesSlice with
  | [] => GoOk messages
  | msgRaw :: rest =>
      match convert_message msgRaw with
      | GoOk message => convert_messages rest (messages ++ [message])%list
      | GoErr text_ => GoErr text_
      end
  end.

Definition LLMChatTool (plugin : PluginGenerators) (params : list (string * GoValue))
  : list PluginCall * GoResult GoValue :=
  match map_index params "messages" with
  | None => ([], GoErr "missing required parameter: messages")
  | Some (GSlice messagesSlice) =>
      match convert_messages messagesSlice [] with
      | GoOk messages =>
          ([CallGenerateFromMessages messages],
           text_result (GenerateFromMessages plugin messages))
      | GoErr text_ => ([], GoErr text_)
      end
  | Some _ => ([], GoErr "parameter messages must be an array")
  end.

(** A message as a caller writes it into [params]. *)
Definition message_value (m : LLMMessage) : GoValue :=
  GMap [ ("role", GString (Role m)); ("content", GString (Content m)) ].

(* ----------------------------------------------------------------- *)
(** *** Observations on a run of the factory *)

(** The output directory the factory tries first. *)
Definition primary_output_dir (w : World) : string :=
  if env_truthy (NETLIFY (env w)) || env_truthy (VERCEL (env w))
     || env_truthy (AWS_LAMBDA_FUNCTION_NAME (env w))
  then tmp_output
  else path_join [cwd w; "public"; "output"].

Definition is_mkdir (e : Event) : bool :=
  match e with
  | MkdirSync _ => true
  | _ => false
  end.

(** The token a handler hands to [getUser]: [authHeader.substring(7)]. *)
Definition bearer_token {number} (w : RouteWorld number) : string :=
  substring_from 7 (match authorization w with
                    | Some h => h
                    | None => EmptyString
                    end).

Definition in_statuses (r : Z) : bool :=
  (r =? 200)%Z || (r =? 400)%Z || (r =? 401)%Z || (r =? 500)%Z.

(* ----------------------------------------------------------------- *)
(** *** More sample inputs *)

(** Scenario A with another personality. *)
Definition scenario_A_grumpy : JsVal Z :=
  JObj [ ("name", JStr "Starbucks Helper");
         ("personality", JStr "grumpy");
         ("instructions", JStr "help customers");
         ("settings", JObj [ ("mcpServers", JArr []) ]);
         ("features", JObj [ ("chat", JBool true) ]) ].

(** [scenario_full] with another display name. *)
Definition scenario_full_renamed : JsVal Z :=
  JObj [ ("name", JStr "Table Wizard");
         ("agent_name", JStr "urn:agent:acme:data");
         ("personality", JStr "precise");
         ("instructions", JStr "analyse tables");
         ("features", field scenario_full "features");
         ("apiKeys", field scenario_full "apiKeys");
         ("settings", field scenario_full "settings");
         ("tools", field scenario_full "tools") ].

(** Scenario A with a creativity that is [null]. *)
Definition scenario_null_creativity : JsVal Z :=
  JObj [ ("name", JStr "Starbucks Helper");
         ("personality", JStr "friendly");
         ("instructions", JStr "help customers");
         ("settings", JObj [ ("mcpServers", JArr []); ("creativity", JNull) ]) ].

(** Scenario A with [true] for settings and a string for features. *)
Definition scenario_loose : JsVal Z :=
  JObj [ ("name", JStr "Starbucks Helper");
         ("personality", JStr "friendly");
         ("instructions", JStr "help customers");
         ("settings", JBool true);
         ("features", JStr "chat") ].

(** A world in which the toolchain check itself fails. *)
Definition world_check_fails : World :=
  {| env := {| NETLIFY := None; VERCEL := None; AWS_LAMBDA_FUNCTION_NAME := None;
               NODE_ENV := Some "development" |};
     cwd := "/app";
     existsSync := fun _ => true;
     mkdirSync_result := fun _ => Ok tt;
     import_AgentCompiler := Ok tt;
     new_AgentCompiler := Ok tt;
     checkToolchain_result := Throw (Error "spawn failed");
     installToolchain_result := Ok tt |}.

(** A world with a read-only working directory: nothing exists, and only the
    temporary directory can be created. *)
Definition world_read_only : World :=
  {| env := {| NETLIFY := None; VERCEL := Some EmptyString;
               AWS_LAMBDA_FUNCTION_NAME := None; NODE_ENV := Some "production" |};
     cwd := "/app";
     existsSync := fun _ => false;
     mkdirSync_result := fun path => if String.eqb path "/tmp/agentify-output"
                                     then Ok tt else Throw (Error "EROFS");
     import_AgentCompiler := Ok tt;
     new_AgentCompiler := Ok tt;
     checkToolchain_result := Ok {| go := true; python := true; gcc := true |};
     installToolchain_result := Ok tt |}.

Definition sample_registration : JsVal Z :=
  JObj [ ("identity", JObj [ ("name", JStr "Helper") ]);
         ("personality", JObj [ ("tone", JStr "friendly") ]);
         ("user_id", JStr "someone-else") ].

(** A request with a valid token for user [u-1]; the database answers with
    the stored row. *)
Definition request_registering : RouteWorld Z :=
  {| authorization := Some "Bearer token-1";
     getUser_result := fun token =>
       if String.eqb token "token-1"
       then Resolved {| data_user := Some {| user_id := "u-1" |}; auth_error := None |}
       else Resolved {| data_user := None; auth_error := Some "invalid JWT" |};
     request_json := Resolved sample_registration;
     upsert_result := fun row =>
       Resolved {| query_data := Some [ JObj [ ("user_id", JStr (row_user_id row)) ] ];
                   query_error := None |};
     select_result := fun of_user =>
       Resolved {| query_data := None; query_error := None |};
     destructure_message := "Cannot destructure property 'identity'" |}.

(** A request without an [authorization] header. *)
Definition request_without_header : RouteWorld Z :=
  {| authorization := None;
     getUser_result := getUser_result request_registering;
     request_json := request_json request_registering;
     upsert_result := upsert_result request_registering;
     select_result := select_result request_registering;
     destructure_message := destructure_message request_registering |}.

Definition sample_messages : list LLMMessage :=
  [ {| Role := "system"; Content := "be brief" |};
    {| Role := "user"; Content := "hello" |} ].

Definition echo_plugin : PluginGenerators :=
  {| GenerateText := fun prompt => GoOk ("echo: " ++ prompt);
     GenerateFromMessages := fun messages =>
       match messages with
       | [] => GoErr "no messages"
       | m :: _ => GoOk (Content m)
       end |}.

(** The same request with a body that lacks the personality. *)
Definition request_incomplete : RouteWorld Z :=
  {| authorization := authorization request_registering;
     getUser_result := getUser_result request_registering;
     request_json := Resolved (JObj [ ("identity", JObj [ ("name", JStr "Helper") ]) ]);
     upsert_result := upsert_result request_registering;
     select_result := select_result request_registering;
     destructure_message := destructure_message request_registering |}.

(* ----------------------------------------------------------------- *)
(** *** Sanity checks on the samples *)

Example scenario_A_valid : valid_input scenario_A = true.
Proof. reflexivity. Qed.

Example scenario_full_valid : valid_input scenario_full = true.
Proof. reflexivity. Qed.

Example scenario_A_runs :
  option_map (fun d => (agent_id d, agent_name d, option_map (map (@tool_name Z)) (tools d)))
    (match result_of (convertUIConfigToPluginConfig scenario_A) sample_ids with
     | Ok d => Some d
     | Throw _ => None
     end)
  = Some ("id-0", JStr "urn:agent:agentify:starbucks-helper", Some ["chat"]).
Proof. reflexivity. Qed.

Example scenario_full_resources :
  option_map (fun d => option_map (map (fun r => (resource_name r, resource_content r)))
                         (resources d))
    (match result_of (convertUIConfigToPluginConfig scenario_full) sample_ids with
     | Ok d => Some d
     | Throw _ => None
     end)
  = Some (Some
      [ ("mcp_server_0",
         "{" ++ dquote ++ "url" ++ dquote ++ ":" ++ dquote ++ "https://a.example.com" ++ dquote
             ++ "," ++ dquote ++ "name" ++ dquote ++ ":" ++ dquote ++ "a" ++ dquote
             ++ "," ++ dquote ++ "enabled" ++ dquote ++ ":true}");
        ("mcp_server_2",
         "{" ++ dquote ++ "url" ++ dquote ++ ":" ++ dquote ++ "https://c.example.com" ++ dquote
             ++ "," ++ dquote ++ "name" ++ dquote ++ ":" ++ dquote ++ "c" ++ dquote
             ++ "," ++ dquote ++ "enabled" ++ dquote ++ ":true}");
        ("creativity_parameter", "7");
        ("api_keys", json_text (field scenario_full "apiKeys")) ]).
Proof. reflexivity. Qed.

Example slug_examples :
  replace_spaces (toLowerCase "Starbucks Helper") = "starbucks-helper"
  /\ replace_spaces (toLowerCase "  My   Agent ") = "-my-agent-"
  /\ hyphenate "a  b c" = "a-b-c".
Proof. repeat split; reflexivity. Qed.

(** Inputs outside the declared type. *)
Example non_object_inputs :
  result_of (convertUIConfigToPluginConfig (JStr "name" : JsVal Z)) sample_ids
  = Throw (Error "Invalid UI config")
  /\ result_of (convertUIConfigToPluginConfig (JNull : JsVal Z)) sample_ids
     = Throw (Error "Invalid UI config")
  /\ result_of (convertUIConfigToPluginConfig (JArr [] : JsVal Z)) sample_ids
     = Throw (Error "Missing required UI config fields").
Proof. repeat split; reflexivity. Qed.

Example empty_agent_name_is_replaced :
  option_map (fun d : AgentPluginConfig Z => agent_name d)
    (match result_of (convertUIConfigToPluginConfig
                        (JObj [ ("name", JStr "Starbucks Helper");
                                ("agent_name", JStr EmptyString);
                                ("personality", JStr "friendly");
                                ("instructions", JStr "help customers");
                                ("settings", JObj [ ("mcpServers", JArr []) ]) ]))
             sample_ids with
     | Ok d => Some d
     | Throw _ => None
     end)
  = Some (JStr "urn:agent:agentify:starbucks-helper").
Proof. reflexivity. Qed.

Example null_creativity_throws :
  result_of (convertUIConfigToPluginConfig
               (JObj [ ("name", JStr "Starbucks Helper");
                       ("personality", JStr "friendly");
                       ("instructions", JStr "help customers");
                       ("settings", JObj [ ("mcpServers", JArr []);
                                           ("creativity", JNull) ]) ] : JsVal Z))
    sample_ids
  = Throw TypeError.
Proof. reflexivity. Qed.

Example numeric_name_throws :
  result_of (convertUIConfigToPluginConfig
               (JObj [ ("name", JNum 5%Z);
                       ("personality", JStr "friendly");
                       ("instructions", JStr "help customers");
                       ("settings", JObj [ ("mcpServers", JArr []) ]) ] : JsVal Z))
    sample_ids
  = Throw TypeError.
Proof. reflexivity. Qed.

Example null_server_throws :
  result_of (convertUIConfigToPluginConfig
               (JObj [ ("name", JStr "Starbucks Helper");
                       ("personality", JStr "friendly");
                       ("instructions", JStr "help customers");
                       ("settings", JObj [ ("mcpServers", JArr [JNull]) ]) ] : JsVal Z))
    sample_ids
  = Throw TypeError.
Proof. reflexivity. Qed.

Example factory_install_fails :
  createAgentCompilerService world_install_fails
  = ([ NewAgentCompiler "/app" "/app/src/lib/compiler/templates" "/app/public/output";
       CheckToolchain; WarnMissingToolchain false true true; LogAttemptInstall;
       InstallToolchain; ErrorInstallFailed; LogFallbackMock ],
     Ok {| defaultTemplateDir := "/app/src/lib/compiler/templates";
           defaultOutputDir := "/app/public/output" |}).
Proof. reflexivity. Qed.

(* ================================================================= *)
(** * Properties of the normalizer *)

Unset Implicit Arguments.

Ltac split_andb :=
  repeat match goal with
         | H : (_ && _)%bool = true |- _ =>
             apply andb_true_iff in H; destruct H
         end.

Section NormalizerFacts.
Context {number : Type} {host : Host number}.

Lemma truthy_not_nullish (v : JsVal number) : truthy v = true -> is_nullish v = false.
Proof. destruct v; simpl; intros E; congruence. Qed.

Lemma get_run (x : JsVal number) (key : string) (ids : IdSource) :
  is_nullish x = false -> get x key ids = (Ok (field x key), ids).
Proof.
  destruct x; simpl; intros E; try discriminate; try reflexivity.
  destruct (own_property l key); reflexivity.
Qed.

Lemma set_tools_self (c : AgentPluginConfig number) ts :
  tools c = ts -> set_tools c ts = c.
Proof. destruct c; simpl; intros <-; reflexivity. Qed.

Lemma set_resources_self (c : AgentPluginConfig number) rs :
  resources c = rs -> set_resources c rs = c.
Proof. destruct c; simpl; intros <-; reflexivity. Qed.

Lemma add_feature_tools_run (features : JsVal number) c ids l0 :
  tools c = Some l0 ->
  add_feature_tools features c ids
  = (Ok (set_tools c (Some (l0 ++ feature_expansion features)%list)), ids).
Proof.
  intros Hc. unfold add_feature_tools, feature_expansion, catalog.
  destruct (truthy features) eqn:Hf; simpl.
  - apply truthy_not_nullish in Hf.
    unfold bind. rewrite !(get_run _ _ _ Hf).
    destruct (truthy (field features "chat")),
             (truthy (field features "automation")),
             (truthy (field features "analytics"));
      simpl; unfold push_tool; simpl; rewrite ?Hc; simpl;
      rewrite <- ?app_assoc; simpl; try reflexivity.
    rewrite app_nil_r, set_tools_self; auto.
  - rewrite app_nil_r, set_tools_self; auto.
Qed.

Lemma forEach_mcpServer_run (servers : list (JsVal number)) :
  forall index c ids l0,
    resources c = Some l0 ->
    forEach_mcpServer servers index c ids
    = (if forallb (fun server => negb (is_nullish server)) servers
       then Ok (set_resources c (Some (l0 ++ mcp_resources_from index servers)%list))
       else Throw TypeError, ids).
Proof.
  induction servers as [|server rest IH]; intros index c ids l0 Hc.
  - simpl. unfold mcp_resources_from; simpl.
    rewrite app_nil_r, set_resources_self; auto.
  - simpl. unfold bind.
    destruct (is_nullish server) eqn:Hn.
    + destruct server; simpl in *; try discriminate; reflexivity.
    + rewrite (get_run _ _ _ Hn). simpl.
      unfold mcp_resources_from, indexed_from. simpl.
      destruct (truthy (field server "enabled")).
      * rewrite (IH (S index) _ ids (l0 ++ [mcp_server_resource server index])%list).
        2:{ unfold push_resource; simpl. rewrite Hc. reflexivity. }
        destruct (forallb _ rest); [|reflexivity].
        simpl. rewrite <- app_assoc. reflexivity.
      * rewrite (IH (S index) _ ids l0 Hc). reflexivity.
Qed.

Lemma add_mcp_servers_run (settings : JsVal number) c ids l0 :
  truthy settings = true ->
  resources c = Some l0 ->
  add_mcp_servers settings c ids
  = (match walkable_servers settings with
     | Some servers =>
         Ok (set_resources c (Some (l0 ++ mcp_resources_from 0 servers)%list))
     | None => Throw TypeError
     end, ids).
Proof.
  intros Hs Hc. unfold add_mcp_servers, walkable_servers, bind.
  rewrite Hs, (get_run _ _ _ (truthy_not_nullish _ Hs)).
  destruct (truthy (field settings "mcpServers")) eqn:Hm.
  - destruct (field settings "mcpServers"); try reflexivity.
    rewrite (forEach_mcpServer_run _ _ _ _ l0 Hc).
    destruct (forallb _ _); reflexivity.
  - unfold mcp_resources_from; simpl.
    rewrite app_nil_r, set_resources_self; auto.
Qed.

Lemma add_creativity_run (settings : JsVal number) c ids l0 :
  truthy settings = true ->
  resources c = Some l0 ->
  add_creativity settings c ids
  = (match creativity_resources settings with
     | Some creativity => Ok (set_resources c (Some (l0 ++ creativity)%list))
     | None => Throw TypeError
     end, ids).
Proof.
  intros Hs Hc. unfold add_creativity, creativity_resources, bind.
  rewrite Hs, (get_run _ _ _ (truthy_not_nullish _ Hs)).
  destruct (field settings "creativity") as [| |b|n|s|l|props] eqn:Hv;
    cbn [is_undefined negb call_toString option_map throw]; try reflexivity.
  - unfold ret. rewrite app_nil_r, set_resources_self; auto.
  - destruct (ToString (JBool b)); cbn [option_map]; [|reflexivity].
    unfold push_resource, ret; simpl; rewrite Hc; reflexivity.
  - destruct (ToString (JNum n)); cbn [option_map]; [|reflexivity].
    unfold push_resource, ret; simpl; rewrite Hc; reflexivity.
  - destruct (ToString (JStr s)); cbn [option_map]; [|reflexivity].
    unfold push_resource, ret; simpl; rewrite Hc; reflexivity.
  - destruct (ToString (JArr l)); cbn [option_map]; [|reflexivity].
    unfold push_resource, ret; simpl; rewrite Hc; reflexivity.
  - destruct (ToString (JObj props)); cbn [option_map]; [|reflexivity].
    unfold push_resource, ret; simpl; rewrite Hc; reflexivity.
Qed.

Lemma add_api_keys_run (apiKeys : JsVal number) c ids l0 :
  resources c = Some l0 ->
  add_api_keys apiKeys c ids
  = (Ok (set_resources c (Some (l0 ++ api_key_resources apiKeys)%list)), ids).
Proof.
  intros Hc. unfold add_api_keys, api_key_resources.
  destruct (truthy apiKeys).
  - unfold push_resource, ret; simpl. rewrite Hc. reflexivity.
  - unfold ret. rewrite app_nil_r, set_resources_self; auto.
Qed.

Lemma adders_run (features settings apiKeys : JsVal number) c ids :
  tools c = Some [] ->
  resources c = Some [] ->
  truthy settings = true ->
  bind (add_feature_tools features c) (fun c1 =>
    bind (add_mcp_servers settings c1) (fun c2 =>
      bind (add_creativity settings c2) (fun c3 =>
        bind (add_api_keys apiKeys c3) (fun c4 => ret c4)))) ids
  = (match walkable_servers settings, creativity_resources settings with
     | Some servers, Some creativity =>
         Ok (set_resources (set_tools c (Some (feature_expansion features)))
               (Some (mcp_resources_from 0 servers ++ creativity
                      ++ api_key_resources apiKeys)%list))
     | _, _ => Throw TypeError
     end, ids).
Proof.
  intros Ht Hr Hs.
  unfold bind at 1. rewrite (add_feature_tools_run _ _ _ [] Ht). cbn [app].
  unfold bind at 1.
  rewrite (add_mcp_servers_run settings _ ids [] Hs) by (simpl; exact Hr).
  destruct (walkable_servers settings) as [servers|]; [|reflexivity].
  cbn [app].
  unfold bind at 1.
  rewrite (add_creativity_run settings _ ids (mcp_resources_from 0 servers) Hs)
    by reflexivity.
  destruct (creativity_resources settings) as [creativity|]; [|reflexivity].
  unfold bind at 1.
  rewrite (add_api_keys_run apiKeys _ ids (mcp_resources_from 0 servers ++ creativity)%list)
    by reflexivity.
  unfold ret. rewrite <- app_assoc. reflexivity.
Qed.

(** The converter, run: two guards, each leaving the identifier source
    untouched, then one draw and the descriptor in closed form. *)
Lemma convert_run (x : JsVal number) (ids : IdSource) :
  convertUIConfigToPluginConfig x ids
  = if negb (truthy x) || negb (typeof_object x)
    then (Throw (Error "Invalid UI config"), ids)
    else if negb (passes_validation x)
         then (Throw (Error "Missing required UI config fields"), ids)
         else (built_descriptor (ids 0) x, fun n => ids (S n)).
Proof.
  unfold convertUIConfigToPluginConfig.
  destruct (negb (truthy x) || negb (typeof_object x)) eqn:Hg.
  - reflexivity.
  - apply orb_false_elim in Hg. destruct Hg as [Ht _].
    apply negb_false_iff in Ht.
    assert (Hn := truthy_not_nullish _ Ht).
    unfold bind at 1. cbn [ret].
    do 7 (unfold bind at 1; rewrite (get_run _ _ _ Hn)).
    unfold passes_validation.
    destruct (truthy (field x "name")) eqn:Hname; cbn [negb orb andb];
      [|reflexivity].
    destruct (truthy (field x "personality")) eqn:Hpers; cbn [negb orb andb];
      [|reflexivity].
    destruct (truthy (field x "instructions")) eqn:Hinstr; cbn [negb orb andb];
      [|reflexivity].
    destruct (truthy (field x "settings")) eqn:Hset; cbn [negb orb andb];
      [|reflexivity].
    unfold bind at 1. cbn [ret].
    unfold bind at 1. cbn [uuidv4].
    unfold built_descriptor, agent_name_of.
    destruct (truthy (field x "agent_name")) eqn:Hex.
    + unfold bind at 1. cbn [ret].
      unfold bind at 1. cbn [ret].
      rewrite adders_run by (try reflexivity; exact Hset).
      destruct (walkable_servers (field x "settings")),
        (creativity_resources (field x "settings")); reflexivity.
    + destruct (field x "name") as [| |b|n|s|l|props] eqn:Hnm;
        try reflexivity.
      unfold bind at 1. unfold bind at 1. cbn [call_toLowerCase ret].
      unfold bind at 1. cbn [ret].
      rewrite adders_run by (try reflexivity; exact Hset).
      destruct (walkable_servers (field x "settings")),
        (creativity_resources (field x "settings")); reflexivity.
Qed.

(* ----------------------------------------------------------------- *)
(** *** The slug *)

Lemma replace_spaces_from_runs (s : string) :
  replace_spaces_from false s = render_runs (runs s)
  /\ replace_spaces_from true s
     = match runs s with
       | (true, _) :: rest => render_runs rest
       | rs => render_runs rs
       end.
Proof.
  induction s as [|c r [IHf IHt]]; [split; reflexivity|].
  cbn [replace_spaces_from runs].
  destruct (is_space c) eqn:Hc.
  - rewrite IHt.
    destruct (runs r) as [|[kind run] rest]; [split; reflexivity|].
    destruct kind; cbn [Bool.eqb]; split; reflexivity.
  - rewrite IHf.
    destruct (runs r) as [|[kind run] rest]; [split; reflexivity|].
    destruct kind; cbn [Bool.eqb]; split; reflexivity.
Qed.

Lemma replace_spaces_hyphenate (s : string) : replace_spaces s = hyphenate s.
Proof. apply (proj1 (replace_spaces_from_runs s)). Qed.

(* ----------------------------------------------------------------- *)
(** *** Resource names *)

Lemma index_toString_inj (n m : nat) : index_toString n = index_toString m -> n = m.
Proof.
  unfold index_toString. intros E.
  apply Unsigned.to_uint_inj.
  assert (Some (Nat.to_uint n) = Some (Nat.to_uint m)) as Hs
    by (rewrite <- !NilEmpty.usu, E; reflexivity).
  congruence.
Qed.

Lemma mcp_resources_names (servers : list (JsVal number)) :
  forall start r,
    In r (mcp_resources_from start servers) ->
    exists k server,
      (start <= k)%nat /\ nth_error servers (k - start) = Some server
      /\ truthy (field server "enabled") = true
      /\ r = mcp_server_resource server k.
Proof.
  induction servers as [|server rest IH]; intros start r Hin.
  - destruct Hin.
  - unfold mcp_resources_from, indexed_from in Hin. cbn in Hin.
    destruct (truthy (field server "enabled")) eqn:He.
    + destruct Hin as [<-|Hin].
      * exists start, server. rewrite Nat.sub_diag. auto.
      * destruct (IH (S start) r Hin) as (k & sv & Hk & Hn & Ht & ->).
        exists k, sv. repeat split; auto; try lia.
        replace (k - start)%nat with (S (k - S start)) by lia. exact Hn.
    + destruct (IH (S start) r Hin) as (k & sv & Hk & Hn & Ht & ->).
      exists k, sv. repeat split; auto; try lia.
      replace (k - start)%nat with (S (k - S start)) by lia. exact Hn.
Qed.

Lemma mcp_resources_NoDup (servers : list (JsVal number)) :
  forall start, NoDup (map resource_name (mcp_resources_from start servers)).
Proof.
  induction servers as [|server rest IH]; intros start.
  - constructor.
  - unfold mcp_resources_from, indexed_from. cbn.
    destruct (truthy (field server "enabled")); [|apply IH].
    constructor; [|apply IH].
    intros Hin. apply in_map_iff in Hin. destruct Hin as (r & Hname & Hin).
    destruct (mcp_resources_names _ _ _ Hin) as (k & sv & Hk & _ & _ & ->).
    cbn in Hname. injection Hname as Hname.
    apply index_toString_inj in Hname. lia.
Qed.

(* ----------------------------------------------------------------- *)
(** *** Results, and valid inputs *)

Lemma convert_Ok_inv (x : JsVal number) ids d :
  result_of (convertUIConfigToPluginConfig x) ids = Ok d ->
  truthy x = true /\ typeof_object x = true /\ passes_validation x = true
  /\ built_descriptor (ids 0) x = Ok d.
Proof.
  unfold result_of. rewrite convert_run.
  destruct (truthy x), (typeof_object x); cbn [negb orb fst]; try discriminate.
  destruct (passes_validation x); cbn [negb fst]; try discriminate.
  auto.
Qed.

Lemma built_descriptor_inv (id : string) (x : JsVal number) d :
  built_descriptor id x = Ok d ->
  exists the_agent_name servers creativity,
    agent_name_of x = Some the_agent_name
    /\ walkable_servers (field x "settings") = Some servers
    /\ creativity_resources (field x "settings") = Some creativity
    /\ agent_id d = id
    /\ facts_url d = "https://agentify.example.com/agents/" ++ id
    /\ agent_name d = the_agent_name
    /\ description d = field x "instructions"
    /\ tools d = Some (feature_expansion (field x "features"))
    /\ resources d = Some (mcp_resources_from 0 servers ++ creativity
                           ++ api_key_resources (field x "apiKeys"))%list
    /\ prompts d = Some []
    /\ trustedExecutionEnvironment d = default_tee.
Proof.
  unfold built_descriptor.
  destruct (agent_name_of x) as [an|]; [|discriminate].
  destruct (walkable_servers (field x "settings")) as [servers|]; [|discriminate].
  destruct (creativity_resources (field x "settings")) as [cre|]; [|discriminate].
  intros E. injection E as <-.
  exists an, servers, cre. repeat split; reflexivity.
Qed.

Lemma walkable_servers_of (settings : JsVal number) servers :
  walkable_servers settings = Some servers -> servers = servers_of settings.
Proof.
  unfold walkable_servers, servers_of.
  destruct (field settings "mcpServers") as [| |b|n|s|l|props]; cbn [truthy];
    try congruence.
  - destruct b; congruence.
  - destruct (number_truthy n); congruence.
  - destruct s; congruence.
  - destruct (forallb _ l); congruence.
Qed.

Lemma MCPServerConfigs_walkable (servers : list (JsVal number)) :
  forallb is_MCPServerConfig servers = true ->
  forallb (fun server => negb (is_nullish server)) servers = true.
Proof.
  induction servers as [|server rest IH]; [reflexivity|].
  cbn [forallb]. intros H. apply andb_true_iff in H. destruct H as [Hs Hr].
  rewrite (IH Hr), andb_true_r.
  destruct server; try discriminate; reflexivity.
Qed.

(** The creativity resource of a well-typed [settings]. *)
Lemma valid_settings (settings : JsVal number) :
  is_settings settings = true ->
  truthy settings = true
  /\ walkable_servers settings = Some (servers_of settings)
  /\ creativity_resources settings
     = Some match field settings "creativity" with
            | JNum n => [creativity_resource (Number_toString n)]
            | _ => []
            end.
Proof.
  unfold is_settings. intros H. split_andb.
  repeat split.
  - destruct settings; try discriminate; reflexivity.
  - unfold walkable_servers, servers_of.
    destruct (field settings "mcpServers"); try discriminate.
    cbn [truthy]. rewrite MCPServerConfigs_walkable; auto.
  - unfold creativity_resources.
    destruct (field settings "creativity"); try discriminate; reflexivity.
Qed.

Lemma valid_agent_name (x : JsVal number) :
  valid_input x = true ->
  exists name,
    field x "name" = JStr name /\ name <> EmptyString
    /\ agent_name_of x
       = Some match field x "agent_name" with
              | JStr (String c r) => JStr (String c r)
              | _ => JStr ("urn:agent:agentify:" ++ hyphenate (toLowerCase name))
              end.
Proof.
  unfold valid_input. intros H. split_andb.
  destruct (field x "name") as [| | | |name| |] eqn:Hname; try discriminate.
  exists name. repeat split.
  - destruct name; [discriminate|congruence].
  - unfold agent_name_of. rewrite Hname, replace_spaces_hyphenate.
    destruct (field x "agent_name") as [| | | |s| |]; try discriminate;
      try reflexivity.
    destruct s; reflexivity.
Qed.

Lemma valid_input_guards (x : JsVal number) :
  valid_input x = true ->
  truthy x = true /\ typeof_object x = true /\ passes_validation x = true.
Proof.
  intros H. pose proof H as Hv. unfold valid_input in H. split_andb.
  repeat split.
  - destruct x; try discriminate; reflexivity.
  - destruct x; try discriminate; reflexivity.
  - unfold passes_validation.
    destruct (valid_settings (field x "settings")) as (Hs & _); auto.
    repeat (apply andb_true_iff; split); auto.
Qed.

(** On a valid input the converter returns, having drawn one identifier. *)
Lemma valid_input_returns (x : JsVal number) (ids : IdSource) :
  valid_input x = true ->
  exists d,
    convertUIConfigToPluginConfig x ids = (Ok d, fun n => ids (S n))
    /\ built_descriptor (ids 0) x = Ok d.
Proof.
  intros H.
  destruct (valid_input_guards x H) as (Ht & Ho & Hp).
  destruct (valid_agent_name x H) as (name & _ & _ & Han).
  assert (is_settings (field x "settings") = true) as Hs
    by (unfold valid_input in H; split_andb; assumption).
  destruct (valid_settings _ Hs) as (_ & Hw & Hc).
  rewrite convert_run, Ht, Ho, Hp. cbn [negb orb].
  unfold built_descriptor. rewrite Han, Hw, Hc.
  eexists. split; reflexivity.
Qed.

(* ----------------------------------------------------------------- *)
(** *** The claims about the normalizer *)

Lemma missing_field_rejected (x : JsVal number) (ids : IdSource) :
  field x "name" = JUndefined \/ field x "personality" = JUndefined
  \/ field x "instructions" = JUndefined \/ field x "settings" = JUndefined ->
  convertUIConfigToPluginConfig x ids
  = (Throw (Error (if truthy x && typeof_object x
                   then "Missing required UI config fields"
                   else "Invalid UI config")), ids).
Proof.
  intros H. rewrite convert_run.
  destruct (truthy x), (typeof_object x); cbn [negb orb andb]; try reflexivity.
  assert (passes_validation x = false) as ->; [|reflexivity].
  unfold passes_validation.
  destruct H as [-> | [-> | [-> | ->]]]; cbn [truthy andb];
    rewrite ?andb_false_r; reflexivity.
Qed.

(** C1: a raw input in which the display name, the personality text, the
    instructions text or the settings object is absent makes the converter
    throw -- 'Invalid UI config' when the input is not an object, 'Missing
    required UI config fields' otherwise -- before any identifier is drawn;
    no descriptor is produced. *)
Theorem C1_missing_required_field_throws (x : JsVal number) (ids : IdSource) :
  field x "name" = JUndefined \/ field x "personality" = JUndefined
  \/ field x "instructions" = JUndefined \/ field x "settings" = JUndefined ->
  convertUIConfigToPluginConfig x ids
  = (Throw (Error (if truthy x && typeof_object x
                   then "Missing required UI config fields"
                   else "Invalid UI config")), ids).
Proof. apply missing_field_rejected. Qed.

Lemma feature_expansion_In (features : JsVal number) (t : ToolConfig number) :
  In t (feature_expansion features)
  <-> exists flag, In (flag, t) catalog /\ truthy (field features flag) = true.
Proof.
  unfold feature_expansion. rewrite in_map_iff. split.
  - intros ([flag t'] & <- & Hin). apply filter_In in Hin.
    destruct Hin as [Hin Hen]. cbn [fst snd] in *.
    apply andb_true_iff in Hen. exists flag. tauto.
  - intros (flag & Hin & Hen). exists (flag, t). split; [reflexivity|].
    apply filter_In. split; [exact Hin|]. cbn [fst].
    rewrite Hen, andb_true_r.
    destruct features; try discriminate; reflexivity.
Qed.

Lemma feature_expansion_NoDup (features : JsVal number) :
  NoDup (map (@tool_name number) (feature_expansion features)).
Proof.
  unfold feature_expansion, catalog. cbn [filter fst].
  destruct (truthy features && truthy (field features "chat")),
           (truthy features && truthy (field features "automation")),
           (truthy features && truthy (field features "analytics"));
    cbn [map snd tool_name chat_tool automate_tool analyze_tool];
    repeat constructor; cbn [In]; intuition discriminate.
Qed.

(** C2: feature-flag expansion.  On a valid input the descriptor's tools are
    the catalog [chat, automation, analytics] filtered by the truthiness of
    the flags, in catalog order: a tool is present exactly when its flag is
    enabled, tool names are pairwise distinct, flags that are absent, falsy or
    outside the catalog add nothing, and with the three flags enabled the
    tools are [chat; automate; analyze]. *)
Theorem C2_feature_expansion (x : JsVal number) (ids : IdSource) :
  valid_input x = true ->
  exists d ts,
    result_of (convertUIConfigToPluginConfig x) ids = Ok d
    /\ tools d = Some ts
    /\ ts = map snd (filter (fun entry => truthy (field (field x "features") (fst entry)))
                            catalog)
    /\ (forall t, In t ts <->
                  exists flag, In (flag, t) catalog
                               /\ truthy (field (field x "features") flag) = true)
    /\ NoDup (map (@tool_name number) ts)
    /\ (truthy (field (field x "features") "chat") = true ->
        truthy (field (field x "features") "automation") = true ->
        truthy (field (field x "features") "analytics") = true ->
        map (@tool_name number) ts = ["chat"; "automate"; "analyze"]
        /\ ts = [chat_tool; automate_tool; analyze_tool]).
Proof.
  intros H.
  destruct (valid_input_returns x ids H) as (d & Hrun & Hd).
  destruct (built_descriptor_inv _ _ _ Hd)
    as (an & servers & cre & _ & _ & _ & _ & _ & _ & _ & Ht & _).
  exists d, (feature_expansion (field x "features")).
  split; [unfold result_of; rewrite Hrun; reflexivity|].
  split; [exact Ht|].
  assert (forall flag,
             truthy (field x "features") && truthy (field (field x "features") flag)
             = truthy (field (field x "features") flag)) as Hflag.
  { intros flag.
    destruct (field x "features"); cbn [field truthy andb];
      rewrite ?andb_false_r; reflexivity. }
  split; [|split; [|split]].
  - unfold feature_expansion, catalog. cbn [filter fst]. rewrite !Hflag. reflexivity.
  - apply feature_expansion_In.
  - apply feature_expansion_NoDup.
  - intros Hc Ha Hn. unfold feature_expansion, catalog. cbn [filter fst].
    rewrite !Hflag, Hc, Ha, Hn. split; reflexivity.
Qed.

(** C3, as the code has it: the feature-flags key is optional.  A valid input
    without it is converted, and the descriptor has no tools. *)
Theorem C3_features_key_is_optional (x : JsVal number) (ids : IdSource) :
  valid_input x = true ->
  field x "features" = JUndefined ->
  exists d,
    result_of (convertUIConfigToPluginConfig x) ids = Ok d
    /\ tools d = Some [].
Proof.
  intros H Hf.
  destruct (valid_input_returns x ids H) as (d & Hrun & Hd).
  destruct (built_descriptor_inv _ _ _ Hd)
    as (an & servers & cre & _ & _ & _ & _ & _ & _ & _ & Ht & _).
  exists d. split; [unfold result_of; rewrite Hrun; reflexivity|].
  rewrite Ht, Hf. reflexivity.
Qed.

Lemma hyphenate_starbucks :
  hyphenate (toLowerCase "Starbucks Helper") = "starbucks-helper".
Proof. reflexivity. Qed.

(** C4: on a valid input, [agent_name] is the UI-supplied [agent_name] when
    one is present (a non-empty string), and otherwise 'urn:agent:agentify:'
    followed by the display name in lower case with every white-space run
    replaced by a hyphen; for the display name "Starbucks Helper" without a
    supplied [agent_name] it is 'urn:agent:agentify:starbucks-helper'; it is
    never empty. *)
Theorem C4_agent_name (x : JsVal number) (ids : IdSource) :
  valid_input x = true ->
  exists d name,
    result_of (convertUIConfigToPluginConfig x) ids = Ok d
    /\ field x "name" = JStr name
    /\ agent_name d
       = match field x "agent_name" with
         | JStr (String c r) => JStr (String c r)
         | _ => JStr ("urn:agent:agentify:" ++ hyphenate (toLowerCase name))
         end
    /\ (field x "agent_name" = JUndefined -> name = "Starbucks Helper" ->
        agent_name d = JStr "urn:agent:agentify:starbucks-helper")
    /\ (exists s, agent_name d = JStr s /\ s <> EmptyString).
Proof.
  intros H.
  destruct (valid_input_returns x ids H) as (d & Hrun & Hd).
  destruct (valid_agent_name x H) as (name & Hname & Hne & Han).
  destruct (built_descriptor_inv _ _ _ Hd)
    as (an & servers & cre & Han' & _ & _ & _ & _ & Hd_an & _).
  rewrite Han in Han'. injection Han' as <-.
  exists d, name.
  split; [unfold result_of; rewrite Hrun; reflexivity|].
  split; [exact Hname|].
  split; [exact Hd_an|].
  split.
  - intros Hu ->. rewrite Hd_an, Hu, hyphenate_starbucks. reflexivity.
  - rewrite Hd_an.
    destruct (field x "agent_name") as [| | | |s| |];
      try (eexists; split; [reflexivity|discriminate]).
    destruct s; eexists; (split; [reflexivity|discriminate]).
Qed.

(** C5: every descriptor the converter returns carries the default isolation
    settings -- process level, 512 MB, 1 core, 60 s, network access allowed,
    file-system access denied -- whatever the input holds; and a valid input
    does get a descriptor. *)
Theorem C5_default_isolation (x : JsVal number) (ids : IdSource) :
  (forall d,
      result_of (convertUIConfigToPluginConfig x) ids = Ok d ->
      trustedExecutionEnvironment d
      = {| isolationLevel := process;
           resourceLimits := {| memory := 512; cpu := 1; timeLimit := 60 |};
           networkAccess := true;
           fileSystemAccess := false |})
  /\ (valid_input x = true ->
      exists d, result_of (convertUIConfigToPluginConfig x) ids = Ok d).
Proof.
  split.
  - intros d Hd. apply convert_Ok_inv in Hd. destruct Hd as (_ & _ & _ & Hd).
    destruct (built_descriptor_inv _ _ _ Hd)
      as (an & servers & cre & _ & _ & _ & _ & _ & _ & _ & _ & _ & _ & Htee).
    exact Htee.
  - intros H. destruct (valid_input_returns x ids H) as (d & Hrun & _).
    exists d. unfold result_of. rewrite Hrun. reflexivity.
Qed.

Lemma mcp_resources_In_enabled (servers : list (JsVal number)) :
  forall start i server,
    nth_error servers i = Some server ->
    truthy (field server "enabled") = true ->
    In (mcp_server_resource server (start + i)) (mcp_resources_from start servers).
Proof.
  induction servers as [|first rest IH]; intros start i server Hn He.
  - destruct i; discriminate.
  - unfold mcp_resources_from, indexed_from. cbn.
    destruct i as [|i].
    + cbn in Hn. injection Hn as ->. rewrite He, Nat.add_0_r. left. reflexivity.
    + cbn in Hn. specialize (IH (S start) i server Hn He).
      replace (start + S i)%nat with (S start + i)%nat by lia.
      destruct (truthy (field first "enabled")); [right|]; exact IH.
Qed.

Lemma mcp_resources_length (servers : list (JsVal number)) :
  forall start,
    length (mcp_resources_from start servers)
    = length (filter (fun server => truthy (field server "enabled")) servers).
Proof.
  induction servers as [|first rest IH]; intros start; [reflexivity|].
  unfold mcp_resources_from, indexed_from. cbn.
  destruct (truthy (field first "enabled")); cbn; rewrite <- (IH (S start));
    reflexivity.
Qed.

Lemma mcp_name_not_fixed (server : JsVal number) (k : nat) :
  resource_name (mcp_server_resource server k) <> "creativity_parameter"
  /\ resource_name (mcp_server_resource server k) <> "api_keys".
Proof. split; cbn; discriminate. Qed.

Lemma resources_NoDup (servers : list (JsVal number)) (creativity : list ResourceConfig)
    (apiKeys : JsVal number) :
  (creativity = [] \/ exists content, creativity = [creativity_resource content]) ->
  NoDup (map resource_name
           (mcp_resources_from 0 servers ++ creativity ++ api_key_resources apiKeys)%list).
Proof.
  intros Hc. rewrite map_app.
  apply NoDup_app.
  - apply mcp_resources_NoDup.
  - unfold api_key_resources.
    destruct Hc as [-> | [content ->]]; destruct (truthy apiKeys); cbn;
      repeat constructor; cbn [In]; intuition discriminate.
  - intros name Hin Hin'.
    apply in_map_iff in Hin. destruct Hin as (r & <- & Hin).
    destruct (mcp_resources_names _ _ _ Hin) as (k & sv & _ & _ & _ & ->).
    destruct (mcp_name_not_fixed sv k) as [Hn1 Hn2].
    unfold api_key_resources in Hin'.
    destruct Hc as [-> | [content ->]]; destruct (truthy apiKeys);
      cbn [map app In resource_name creativity_resource api_keys_resource] in Hin';
      intuition congruence.
Qed.

(** C6: auxiliary settings.  On a valid input the resources are, in order:
    one embedded JSON resource per enabled MCP server, named 'mcp_server_'
    plus the server's position and holding the serialized server (a disabled
    server adds nothing); the embedded text resource 'creativity_parameter'
    holding the creativity value as a string when creativity is defined; the
    embedded JSON resource 'api_keys' holding the serialized credentials when
    API keys are supplied.  Resource names are pairwise distinct. *)
Theorem C6_auxiliary_settings (x : JsVal number) (ids : IdSource) :
  valid_input x = true ->
  exists d rs,
    result_of (convertUIConfigToPluginConfig x) ids = Ok d
    /\ resources d = Some rs
    /\ rs = (mcp_resources_from 0 (servers_of (field x "settings"))
             ++ match field (field x "settings") "creativity" with
                | JNum n => [ {| resource_name := "creativity_parameter";
                                 resource_type := text;
                                 resource_content := Number_toString n;
                                 resource_isEmbedded := true |} ]
                | _ => []
                end
             ++ match field x "apiKeys" with
                | JUndefined => []
                | keys => [ {| resource_name := "api_keys";
                               resource_type := json;
                               resource_content := JSON_stringify keys;
                               resource_isEmbedded := true |} ]
                end)%list
    /\ (forall i server,
          nth_error (servers_of (field x "settings")) i = Some server ->
          (In {| resource_name := "mcp_server_" ++ index_toString i;
                 resource_type := json;
                 resource_content := JSON_stringify server;
                 resource_isEmbedded := true |} rs
           <-> field server "enabled" = JBool true))
    /\ length (mcp_resources_from 0 (servers_of (field x "settings")))
       = length (filter (fun server => truthy (field server "enabled"))
                        (servers_of (field x "settings")))
    /\ NoDup (map resource_name rs).
Proof.
  intros H.
  destruct (valid_input_returns x ids H) as (d & Hrun & Hd).
  destruct (built_descriptor_inv _ _ _ Hd)
    as (an & servers & cre & _ & Hw & Hc & _ & _ & _ & _ & _ & Hr & _).
  assert (is_settings (field x "settings") = true) as Hs
    by (unfold valid_input in H; split_andb; assumption).
  assert (optional is_apiKeys (field x "apiKeys") = true) as Hk
    by (unfold valid_input in H; split_andb; assumption).
  destruct (valid_settings _ Hs) as (_ & Hw' & Hc').
  rewrite Hw' in Hw. injection Hw as <-.
  rewrite Hc' in Hc. injection Hc as <-.
  set (settings := field x "settings") in *.
  assert (api_key_resources (field x "apiKeys")
          = match field x "apiKeys" with
            | JUndefined => []
            | keys => [api_keys_resource keys]
            end) as Hapi.
  { unfold api_key_resources.
    destruct (field x "apiKeys"); try discriminate; reflexivity. }
  assert (forall server, In server (servers_of settings) ->
                         is_MCPServerConfig server = true) as Htyped.
  { unfold is_settings in Hs. split_andb. unfold servers_of.
    destruct (field settings "mcpServers"); try discriminate.
    apply forallb_forall. assumption. }
  assert (NoDup (map resource_name
                   (mcp_resources_from 0 (servers_of settings)
                    ++ match field settings "creativity" with
                       | JNum n => [creativity_resource (Number_toString n)]
                       | _ => []
                       end
                    ++ api_key_resources (field x "apiKeys"))%list)) as Hnd.
  { apply resources_NoDup.
    destruct (field settings "creativity"); eauto. }
  eexists d, _.
  split; [unfold result_of; rewrite Hrun; reflexivity|].
  split; [exact Hr|].
  split; [rewrite Hapi; reflexivity|].
  split; [|split; [apply mcp_resources_length|exact Hnd]].
  intros i server Hi.
  change {| resource_name := "mcp_server_" ++ index_toString i;
            resource_type := json;
            resource_content := JSON_stringify server;
            resource_isEmbedded := true |}
    with (mcp_server_resource server i).
  assert (is_boolean (field server "enabled") = true) as Hb.
  { specialize (Htyped server (nth_error_In _ _ Hi)).
    unfold is_MCPServerConfig in Htyped. split_andb. assumption. }
  split.
  - intros Hin. apply in_app_or in Hin. destruct Hin as [Hin|Hin].
    + destruct (mcp_resources_names _ _ _ Hin) as (k & sv & _ & Hk' & Ht & E).
      assert (k = i) as ->.
      { apply (f_equal resource_name) in E. cbn in E. injection E as E.
        apply index_toString_inj in E. congruence. }
      rewrite Nat.sub_0_r in Hk'. rewrite Hi in Hk'. injection Hk' as <-.
      destruct (field server "enabled"); try discriminate.
      cbn in Ht. rewrite Ht. reflexivity.
    + exfalso.
      destruct (mcp_name_not_fixed server i) as [Hn1 Hn2].
      apply in_app_or in Hin. destruct Hin as [Hin|Hin].
      * destruct (field settings "creativity"); cbn [In] in Hin;
          try contradiction.
        destruct Hin as [Hin|[]]. apply Hn1. rewrite <- Hin. reflexivity.
      * unfold api_key_resources in Hin.
        destruct (truthy (field x "apiKeys")); cbn [In] in Hin; try contradiction.
        destruct Hin as [Hin|[]]. apply Hn2. rewrite <- Hin. reflexivity.
  - intros He. apply in_or_app. left.
    apply (mcp_resources_In_enabled _ 0 i server Hi).
    rewrite He. reflexivity.
Qed.

Lemma own_property_None (props : list (string * JsVal number)) (key : string) :
  ~ In key (map fst props) -> own_property props key = None.
Proof.
  induction props as [|[k v] rest IH]; [reflexivity|].
  cbn [map fst In own_property]. intros Hn.
  destruct (String.eqb_spec k key) as [->|_]; [tauto|].
  apply IH. tauto.
Qed.

(** An object that has only properties of a descriptor is not a UI
    configuration. *)
Lemma descriptor_shaped_rejected (props : list (string * JsVal number)) ids :
  (forall key, In key (map fst props) -> In key descriptor_keys) ->
  convertUIConfigToPluginConfig (JObj props) ids
  = (Throw (Error "Missing required UI config fields"), ids).
Proof.
  intros Hkeys.
  rewrite (missing_field_rejected (JObj props) ids); [reflexivity|].
  left. cbn [field].
  rewrite own_property_None; [reflexivity|].
  intros Hin. apply Hkeys in Hin. cbn in Hin.
  intuition discriminate.
Qed.

(** C7, as the code has it: the converter is deterministic once the
    identifier it draws is fixed, and the identifier fields always come from
    the draw, never from the input: two runs on one input that draw the same
    identifier end alike; a returned descriptor has [agent_id] equal to the
    identifier drawn and [facts_url] equal to the fixed prefix followed by it;
    and an object with the properties of a descriptor, handed back as raw
    input, is rejected with 'Missing required UI config fields'. *)
Theorem C7_deterministic_for_a_drawn_identifier (x : JsVal number) (ids ids' : IdSource) :
  ids 0 = ids' 0 ->
  result_of (convertUIConfigToPluginConfig x) ids
  = result_of (convertUIConfigToPluginConfig x) ids'
  /\ (forall d,
        result_of (convertUIConfigToPluginConfig x) ids = Ok d ->
        agent_id d = ids 0
        /\ facts_url d = "https://agentify.example.com/agents/" ++ ids 0)
  /\ (forall props,
        (forall key, In key (map fst props) -> In key descriptor_keys) ->
        result_of (convertUIConfigToPluginConfig (JObj props)) ids'
        = Throw (Error "Missing required UI config fields")).
Proof.
  intros Hid. split; [|split].
  - unfold result_of. rewrite !convert_run, Hid.
    destruct (negb (truthy x) || negb (typeof_object x)); [reflexivity|].
    destruct (negb (passes_validation x)); reflexivity.
  - intros d Hd. apply convert_Ok_inv in Hd. destruct Hd as (_ & _ & _ & Hd).
    destruct (built_descriptor_inv _ _ _ Hd)
      as (an & servers & cre & _ & _ & _ & Hi & Hf & _).
    auto.
  - intros props Hkeys. unfold result_of.
    rewrite descriptor_shaped_rejected; auto.
Qed.

Lemma agree_outside_closed_form (x y : JsVal number) (id : string) :
  agree_outside ["tools"; "resources"] x y ->
  passes_validation x = passes_validation y
  /\ built_descriptor id x = built_descriptor id y.
Proof.
  intros H.
  assert (forall key,
             (String.eqb "tools" key || String.eqb "resources" key) = false ->
             field x key = field y key) as Hk.
  { intros key Hkey. apply H. cbn [In]. intros [<-|[<-|[]]]; discriminate. }
  unfold passes_validation, built_descriptor, agent_name_of.
  rewrite (Hk "name"), (Hk "personality"), (Hk "instructions"), (Hk "settings"),
    (Hk "agent_name"), (Hk "features"), (Hk "apiKeys") by reflexivity.
  split; reflexivity.
Qed.

(** C10: caller-supplied [tools] and [resources] are ignored.  Two input
    objects that agree on every property other than [tools] and [resources]
    are converted alike under one identifier source; the tools of a descriptor
    depend on the feature flags only and its resources on the settings and
    the API keys only; the tools, resources and prompts arrays of a descriptor
    are always present; and a valid input does get a descriptor. *)
Theorem C10_supplied_tools_and_resources_ignored (x y : JsVal number) (ids : IdSource) :
  (is_plain_object x = true -> is_plain_object y = true ->
   agree_outside ["tools"; "resources"] x y ->
   convertUIConfigToPluginConfig x ids = convertUIConfigToPluginConfig y ids)
  /\ (forall dx dy,
        result_of (convertUIConfigToPluginConfig x) ids = Ok dx ->
        result_of (convertUIConfigToPluginConfig y) ids = Ok dy ->
        (field x "features" = field y "features" -> tools dx = tools dy)
        /\ (field x "settings" = field y "settings" ->
            field x "apiKeys" = field y "apiKeys" ->
            resources dx = resources dy))
  /\ (forall dx,
        result_of (convertUIConfigToPluginConfig x) ids = Ok dx ->
        exists ts rs ps,
          tools dx = Some ts /\ resources dx = Some rs /\ prompts dx = Some ps)
  /\ (valid_input x = true ->
      exists dx, result_of (convertUIConfigToPluginConfig x) ids = Ok dx).
Proof.
  split; [|split; [|split]].
  - intros Hox Hoy Hagree.
    destruct (agree_outside_closed_form x y (ids 0) Hagree) as [Hp Hb].
    rewrite !convert_run, Hp, Hb.
    destruct x; try discriminate; destruct y; try discriminate. reflexivity.
  - intros dx dy Hx Hy.
    apply convert_Ok_inv in Hx. destruct Hx as (_ & _ & _ & Hdx).
    apply convert_Ok_inv in Hy. destruct Hy as (_ & _ & _ & Hdy).
    destruct (built_descriptor_inv _ _ _ Hdx)
      as (anx & sx & cx & _ & Hwx & Hcx & _ & _ & _ & _ & Htx & Hresx & _).
    destruct (built_descriptor_inv _ _ _ Hdy)
      as (any & sy & cy & _ & Hwy & Hcy & _ & _ & _ & _ & Hty & Hresy & _).
    split.
    + intros E. rewrite Htx, Hty, E. reflexivity.
    + intros Es Ek. rewrite Es in Hwx, Hcx.
      rewrite Hwx in Hwy. injection Hwy as <-.
      rewrite Hcx in Hcy. injection Hcy as <-.
      rewrite Hresx, Hresy, Ek. reflexivity.
  - intros dx Hx.
    apply convert_Ok_inv in Hx. destruct Hx as (_ & _ & _ & Hdx).
    destruct (built_descriptor_inv _ _ _ Hdx)
      as (anx & sx & cx & _ & _ & _ & _ & _ & _ & _ & Htx & Hresx & Hpx & _).
    do 3 eexists. repeat split; eassumption.
  - intros H. destruct (valid_input_returns x ids H) as (d & Hrun & _).
    exists d. unfold result_of. rewrite Hrun. reflexivity.
Qed.

End NormalizerFacts.

(* ----------------------------------------------------------------- *)
(** *** The claims about the normalizer, on the sample inputs *)

Lemma C1_witness :
  convertUIConfigToPluginConfig
    (JObj [ ("name", JStr "Starbucks Helper"); ("personality", JStr "friendly");
            ("instructions", JStr "help customers") ] : JsVal Z) sample_ids
  = (Throw (Error "Missing required UI config fields"), sample_ids).
Proof.
  apply (C1_missing_required_field_throws
           (JObj [ ("name", JStr "Starbucks Helper"); ("personality", JStr "friendly");
                   ("instructions", JStr "help customers") ] : JsVal Z) sample_ids).
  right. right. right. reflexivity.
Defined.

Lemma C2_witness :
  exists d ts,
    result_of (convertUIConfigToPluginConfig scenario_B) sample_ids = Ok d
    /\ tools d = Some ts
    /\ map (@tool_name Z) ts = ["chat"; "automate"; "analyze"].
Proof.
  destruct (C2_feature_expansion scenario_B sample_ids eq_refl)
    as (d & ts & Hrun & Ht & _ & _ & _ & Hall).
  exists d, ts. repeat split; try assumption.
  apply Hall; reflexivity.
Defined.

(** C3, as the specification states it, fails: scenario A without the
    [features] key is converted, to a descriptor without tools. *)
Lemma C3_counterexample :
  field scenario_no_features "features" = JUndefined
  /\ exists d,
      convertUIConfigToPluginConfig scenario_no_features sample_ids
      = (Ok d, fun n => sample_ids (S n))
      /\ agent_id d = "id-0"
      /\ tools d = Some [].
Proof.
  split; [reflexivity|].
  eexists. split; [reflexivity|]. split; reflexivity.
Qed.

Lemma C3_witness :
  exists d,
    result_of (convertUIConfigToPluginConfig scenario_no_features) sample_ids = Ok d
    /\ tools d = Some [].
Proof.
  apply (C3_features_key_is_optional scenario_no_features sample_ids); reflexivity.
Defined.

Lemma C4_witness :
  exists d,
    result_of (convertUIConfigToPluginConfig scenario_A) sample_ids = Ok d
    /\ agent_name d = JStr "urn:agent:agentify:starbucks-helper".
Proof.
  destruct (C4_agent_name scenario_A sample_ids eq_refl)
    as (d & name & Hrun & Hname & _ & Hex & _).
  exists d. split; [exact Hrun|].
  apply Hex; [reflexivity|].
  cbn in Hname. congruence.
Defined.

Lemma C5_witness :
  exists d,
    result_of (convertUIConfigToPluginConfig scenario_full) sample_ids = Ok d
    /\ trustedExecutionEnvironment d = default_tee.
Proof.
  destruct (C5_default_isolation scenario_full sample_ids) as [Htee Hreturns].
  destruct (Hreturns eq_refl) as [d Hd].
  exists d. split; [exact Hd|]. apply Htee, Hd.
Defined.

Lemma C6_witness :
  exists d rs,
    result_of (convertUIConfigToPluginConfig scenario_full) sample_ids = Ok d
    /\ resources d = Some rs
    /\ map resource_name rs
       = ["mcp_server_0"; "mcp_server_2"; "creativity_parameter"; "api_keys"].
Proof.
  destruct (C6_auxiliary_settings scenario_full sample_ids eq_refl)
    as (d & rs & Hrun & Hr & Hrs & _).
  exists d, rs. repeat split; try assumption.
  rewrite Hrs. reflexivity.
Defined.

(** C7, as the specification states it, fails.  Whatever the rendering of
    a descriptor as raw input, the second normalization draws the next
    identifier, so it cannot return the first descriptor; and the descriptor
    object itself is not an accepted input, even under the same identifier. *)
Lemma C7_counterexample :
  (forall asRawInput : AgentPluginConfig Z -> JsVal Z,
      exists d ids',
        convertUIConfigToPluginConfig scenario_A sample_ids = (Ok d, ids')
        /\ result_of (convertUIConfigToPluginConfig (asRawInput d)) ids' <> Ok d)
  /\ (exists d,
        result_of (convertUIConfigToPluginConfig scenario_A) sample_ids = Ok d
        /\ result_of (convertUIConfigToPluginConfig (descriptor_object d)) sample_ids
           = Throw (Error "Missing required UI config fields")).
Proof.
  split.
  - intros asRawInput. eexists _, _. split; [reflexivity|].
    intros Hagain. apply convert_Ok_inv in Hagain.
    destruct Hagain as (_ & _ & _ & Hd).
    destruct (built_descriptor_inv _ _ _ Hd)
      as (an & servers & cre & _ & _ & _ & Hi & _).
    cbn in Hi. discriminate.
  - eexists. split; reflexivity.
Qed.

Lemma C7_witness :
  result_of (convertUIConfigToPluginConfig scenario_A) sample_ids
  = result_of (convertUIConfigToPluginConfig scenario_A) (fun _ => "id-0")
  /\ (forall d,
        result_of (convertUIConfigToPluginConfig scenario_A) sample_ids = Ok d ->
        agent_id d = "id-0"
        /\ facts_url d = "https://agentify.example.com/agents/id-0").
Proof.
  destruct (C7_deterministic_for_a_drawn_identifier
              scenario_A sample_ids (fun _ => "id-0") eq_refl) as (H1 & H2 & _).
  split; [exact H1|exact H2].
Defined.

Lemma C10_witness :
  convertUIConfigToPluginConfig scenario_full sample_ids
  = convertUIConfigToPluginConfig scenario_full_variant sample_ids.
Proof.
  refine (proj1 (C10_supplied_tools_and_resources_ignored
                   scenario_full scenario_full_variant sample_ids) eq_refl eq_refl _).
  intros key Hkey. cbn [In] in Hkey.
  destruct (String.eqb_spec "tools" key) as [<-|Ht]; [tauto|].
  destruct (String.eqb_spec "resources" key) as [<-|Hr]; [tauto|].
  unfold scenario_full_variant, scenario_full. cbn [field own_property].
  repeat match goal with
         | |- context [String.eqb ?k key] => destruct (String.eqb_spec k key)
         end; try reflexivity; congruence.
Defined.

(* ================================================================= *)
(** * Properties of the service factory *)

Lemma set_up_compiler_events (w : World) :
  forallb is_setup_event (fst (set_up_compiler w)) = true.
Proof.
  unfold set_up_compiler, mkdirSync.
  set (outputDir :=
         if env_truthy (NETLIFY (env w)) || env_truthy (VERCEL (env w))
            || env_truthy (AWS_LAMBDA_FUNCTION_NAME (env w))
         then tmp_output
         else path_join [cwd w; "public"; "output"]).
  clearbody outputDir.
  destruct (import_AgentCompiler w) as [[]|?]; [|reflexivity].
  destruct (existsSync w outputDir);
    destruct (mkdirSync_result w outputDir) as [[]|?];
    destruct (existsSync w tmp_output);
    destruct (mkdirSync_result w tmp_output) as [[]|?];
    destruct (new_AgentCompiler w) as [[]|?];
    reflexivity.
Qed.

(** The factory's trace is the trace of the set-up, followed, when the set-up
    succeeds, by that of the toolchain check. *)
Lemma factory_split (w : World) :
  (exists e, snd (set_up_compiler w) = Throw e
             /\ createAgentCompilerService w = (fst (set_up_compiler w), Throw e))
  \/ (exists service,
         snd (set_up_compiler w) = Ok service
         /\ fst (createAgentCompilerService w)
            = (fst (set_up_compiler w) ++ fst (check_toolchain_availability w))%list
         /\ snd (createAgentCompilerService w)
            = match snd (check_toolchain_availability w) with
              | Ok _ => Ok service
              | Throw e => Throw e
              end).
Proof.
  unfold createAgentCompilerService, tr_bind.
  destruct (set_up_compiler w) as [pre [service|e]].
  - right. exists service.
    destruct (check_toolchain_availability w) as [post [[]|e]]; cbn.
    + rewrite app_nil_r. auto.
    + auto.
  - left. exists e. auto.
Qed.

Lemma factory_toolchain_event (w : World) (e : Event) :
  is_setup_event e = false ->
  In e (fst (createAgentCompilerService w)) ->
  In e (fst (check_toolchain_availability w))
  /\ exists service,
      snd (set_up_compiler w) = Ok service
      /\ snd (createAgentCompilerService w)
         = match snd (check_toolchain_availability w) with
           | Ok _ => Ok service
           | Throw e => Throw e
           end.
Proof.
  intros Hk Hin.
  assert (~ In e (fst (set_up_compiler w))) as Hpre.
  { intros Hpre.
    pose proof (proj1 (forallb_forall _ _) (set_up_compiler_events w) e Hpre).
    congruence. }
  destruct (factory_split w) as [(err & _ & Hrun) | (service & Hs & Htr & Hres)].
  - rewrite Hrun in Hin. contradiction.
  - rewrite Htr in Hin. apply in_app_or in Hin. destruct Hin; [contradiction|].
    eauto.
Qed.

Lemma filter_disjoint {A} (p keep : A -> bool) (l : list A) :
  (forall a, p a = true -> keep a = false) ->
  forallb p l = true ->
  filter keep l = [].
Proof.
  intros Hkeep. induction l as [|a rest IH]; [reflexivity|].
  cbn [forallb filter]. intros Hall.
  apply andb_true_iff in Hall. destruct Hall as [Ha Hr].
  rewrite (Hkeep a Ha). apply IH, Hr.
Qed.

Lemma factory_filter (w : World) (keep : Event -> bool) :
  (forall e, is_setup_event e = true -> keep e = false) ->
  In CheckToolchain (fst (createAgentCompilerService w)) ->
  filter keep (fst (createAgentCompilerService w))
  = filter keep (fst (check_toolchain_availability w)).
Proof.
  intros Hkeep Hin.
  destruct (factory_split w) as [(err & _ & Hrun) | (service & Hs & Htr & Hres)].
  - rewrite Hrun in Hin. cbn [fst] in Hin.
    pose proof (proj1 (forallb_forall _ _) (set_up_compiler_events w) _ Hin).
    discriminate.
  - rewrite Htr, filter_app.
    rewrite (filter_disjoint is_setup_event keep _ Hkeep (set_up_compiler_events w)).
    reflexivity.
Qed.

(** Splits the answers of the world that the toolchain check consults. *)
Ltac run_check w :=
  unfold check_toolchain_availability, is_production;
  destruct (checkToolchain_result w) as [[go_ok python_ok gcc_ok]|?];
  try destruct go_ok; try destruct python_ok;
  destruct (NODE_ENV (env w)) as [mode|];
  try destruct (String.eqb mode "production");
  destruct (installToolchain_result w) as [[]|?];
  cbn.

Ltac clear_event_membership :=
  repeat match goal with
         | H : _ \/ _ |- _ => destruct H
         | H : False |- _ => destruct H
         | H : In _ _ |- _ => cbn [In] in H
         | H : @eq Event _ _ |- _ => try discriminate H; clear H
         end.

Lemma check_install_guard (w : World) :
  In InstallToolchain (fst (check_toolchain_availability w)) ->
  is_production w = false
  /\ exists tc, checkToolchain_result w = Ok tc /\ (go tc = false \/ python tc = false).
Proof.
  run_check w; intros H; clear_event_membership;
    (split; [reflexivity|eexists; split; [reflexivity|cbn; auto]]).
Qed.

Lemma check_install_once_and_caught (w : World) :
  (length (filter is_install (fst (check_toolchain_availability w))) <= 1)%nat
  /\ (forall e,
        In InstallToolchain (fst (check_toolchain_availability w)) ->
        installToolchain_result w = Throw e ->
        In LogFallbackMock (fst (check_toolchain_availability w))
        /\ snd (check_toolchain_availability w) = Ok tt).
Proof.
  run_check w; (split; [lia|]); intros e' Hin Hthrow;
    try discriminate Hthrow; clear_event_membership;
    (split; [cbn; tauto | reflexivity]).
Qed.

Lemma check_result_ignores_install (w : World) (r : Outcome unit) :
  snd (check_toolchain_availability (with_installToolchain_result w r))
  = snd (check_toolchain_availability w).
Proof.
  unfold with_installToolchain_result, check_toolchain_availability, is_production.
  cbn [env checkToolchain_result installToolchain_result].
  destruct (checkToolchain_result w) as [[go_ok python_ok gcc_ok]|?];
    try destruct go_ok; try destruct python_ok;
    destruct (NODE_ENV (env w)) as [mode|];
    try destruct (String.eqb mode "production");
    destruct (installToolchain_result w) as [[]|?];
    destruct r as [[]|?];
    reflexivity.
Qed.

Lemma check_missing_warning (w : World) (tc : Toolchain) :
  checkToolchain_result w = Ok tc ->
  filter is_missing_warning (fst (check_toolchain_availability w))
  = if negb (go tc) || negb (python tc)
    then [WarnMissingToolchain (go tc) (python tc) (gcc tc)]
    else [].
Proof.
  revert tc. run_check w; intros tc Hcheck; try discriminate Hcheck;
    injection Hcheck as <-; reflexivity.
Qed.

(** C8: the toolchain is never installed automatically in production.
    [installToolchain] is called only when the environment is not production
    and the check has reported a required tool (go or python) missing; in
    production, or with the tools available, it is not called; it is called
    at most once; and what it does, a failure included, does not change how
    service creation ends: a failure is caught, the fall-back to mock
    compilation is logged and the service is returned. *)
Theorem C8_install_only_outside_production (w : World) :
  (In InstallToolchain (fst (createAgentCompilerService w)) ->
   is_production w = false
   /\ exists tc, checkToolchain_result w = Ok tc
                 /\ (go tc = false \/ python tc = false))
  /\ (is_production w = true ->
      ~ In InstallToolchain (fst (createAgentCompilerService w)))
  /\ (forall tc,
        checkToolchain_result w = Ok tc -> go tc = true -> python tc = true ->
        ~ In InstallToolchain (fst (createAgentCompilerService w)))
  /\ (length (filter is_install (fst (createAgentCompilerService w))) <= 1)%nat
  /\ (forall r,
        snd (createAgentCompilerService (with_installToolchain_result w r))
        = snd (createAgentCompilerService w))
  /\ (forall e,
        In InstallToolchain (fst (createAgentCompilerService w)) ->
        installToolchain_result w = Throw e ->
        In LogFallbackMock (fst (createAgentCompilerService w))
        /\ exists service, snd (createAgentCompilerService w) = Ok service).
Proof.
  assert (In InstallToolchain (fst (createAgentCompilerService w)) ->
          is_production w = false
          /\ exists tc, checkToolchain_result w = Ok tc
                        /\ (go tc = false \/ python tc = false)) as Hguard.
  { intros Hin. apply factory_toolchain_event in Hin; [|reflexivity].
    apply check_install_guard, Hin. }
  split; [exact Hguard|].
  split; [|split; [|split; [|split]]].
  - intros Hprod Hin. apply Hguard in Hin. destruct Hin as [Hnp _]. congruence.
  - intros tc Hcheck Hgo Hpy Hin. apply Hguard in Hin.
    destruct Hin as (_ & tc' & Hcheck' & Hmissing).
    rewrite Hcheck in Hcheck'. injection Hcheck' as <-.
    destruct Hmissing; congruence.
  - destruct (factory_split w) as [(err & _ & Hrun) | (service & Hs & Htr & Hres)].
    + rewrite Hrun. cbn [fst].
      rewrite (filter_disjoint is_setup_event is_install _
                 ltac:(intros []; cbn; congruence) (set_up_compiler_events w)).
      cbn. lia.
    + rewrite Htr, filter_app.
      rewrite (filter_disjoint is_setup_event is_install _
                 ltac:(intros []; cbn; congruence) (set_up_compiler_events w)).
      apply check_install_once_and_caught.
  - intros r. unfold createAgentCompilerService, tr_bind.
    change (set_up_compiler (with_installToolchain_result w r))
      with (set_up_compiler w).
    destruct (set_up_compiler w) as [pre [service|e]]; [|reflexivity].
    pose proof (check_result_ignores_install w r) as Hsame.
    destruct (check_toolchain_availability (with_installToolchain_result w r))
      as [post' [[]|e']],
      (check_toolchain_availability w) as [post [[]|e]];
      cbn in *; congruence.
  - intros e Hin Hthrow.
    pose proof Hin as Hin'.
    apply factory_toolchain_event in Hin'; [|reflexivity].
    destruct Hin' as (Hin' & service & Hs & Hres).
    destruct (check_install_once_and_caught w) as [_ Hcaught].
    destruct (Hcaught e Hin' Hthrow) as [Hlog Hok].
    split.
    + destruct (factory_split w) as [(err & Hs' & _) | (service' & _ & Htr & _)].
      * congruence.
      * rewrite Htr. apply in_or_app. right. exact Hlog.
    + exists service. rewrite Hres, Hok. reflexivity.
Qed.

(** C9, as the specification states it, fails: with go and python available
    and gcc reported missing, the run takes the ready path; nothing is warned
    about and nothing is installed. *)
Lemma C9_counterexample :
  checkToolchain_result world_without_gcc
  = Ok {| go := true; python := true; gcc := false |}
  /\ createAgentCompilerService world_without_gcc
     = ([ NewAgentCompiler "/app" "/app/src/lib/compiler/templates" "/app/public/output";
          CheckToolchain ],
        Ok {| defaultTemplateDir := "/app/src/lib/compiler/templates";
              defaultOutputDir := "/app/public/output" |})
  /\ filter is_missing_warning (fst (createAgentCompilerService world_without_gcc)) = [].
Proof. repeat split; reflexivity. Qed.

(** C9, as the code has it: once the toolchain check has answered, the
    missing-toolchain branch is entered if and only if go or python is
    reported unavailable; the warning then shows the three answers, that of
    gcc included, but gcc alone does not lead into the branch. *)
Theorem C9_missing_branch_iff_go_or_python_unavailable (w : World) (tc : Toolchain) :
  In CheckToolchain (fst (createAgentCompilerService w)) ->
  checkToolchain_result w = Ok tc ->
  filter is_missing_warning (fst (createAgentCompilerService w))
  = (if negb (go tc) || negb (python tc)
     then [WarnMissingToolchain (go tc) (python tc) (gcc tc)]
     else [])
  /\ ((exists go_ok python_ok gcc_ok,
          In (WarnMissingToolchain go_ok python_ok gcc_ok)
             (fst (createAgentCompilerService w)))
      <-> go tc = false \/ python tc = false).
Proof.
  intros Hreached Hcheck.
  assert (filter is_missing_warning (fst (createAgentCompilerService w))
          = if negb (go tc) || negb (python tc)
            then [WarnMissingToolchain (go tc) (python tc) (gcc tc)]
            else []) as Hfilter.
  { rewrite factory_filter; [apply check_missing_warning, Hcheck| |exact Hreached].
    intros []; cbn; congruence. }
  split; [exact Hfilter|].
  split.
  - intros (g & p & c & Hin).
    assert (In (WarnMissingToolchain g p c)
               (filter is_missing_warning (fst (createAgentCompilerService w)))) as Hf
      by (apply filter_In; split; [exact Hin|reflexivity]).
    rewrite Hfilter in Hf.
    destruct (go tc), (python tc); cbn in Hf; auto; contradiction.
  - intros Hmissing.
    exists (go tc), (python tc), (gcc tc).
    assert (In (WarnMissingToolchain (go tc) (python tc) (gcc tc))
               (filter is_missing_warning (fst (createAgentCompilerService w)))) as Hf.
    { rewrite Hfilter.
      destruct Hmissing as [-> | ->]; cbn; rewrite ?orb_true_r; left; reflexivity. }
    apply filter_In in Hf. apply Hf.
Qed.

Lemma C9_witness :
  filter is_missing_warning (fst (createAgentCompilerService world_install_fails))
  = [WarnMissingToolchain false true true].
Proof.
  apply (proj1 (C9_missing_branch_iff_go_or_python_unavailable
                  world_install_fails
                  {| go := false; python := true; gcc := true |}
                  ltac:(cbn; tauto) eq_refl)).
Defined.

Lemma C8_witness :
  In InstallToolchain (fst (createAgentCompilerService world_install_fails))
  /\ In LogFallbackMock (fst (createAgentCompilerService world_install_fails))
  /\ exists service, snd (createAgentCompilerService world_install_fails) = Ok service.
Proof.
  destruct (C8_install_only_outside_production world_install_fails)
    as (_ & _ & _ & _ & _ & Hcaught).
  assert (In InstallToolchain (fst (createAgentCompilerService world_install_fails)))
    as Hin by (cbn; tauto).
  split; [exact Hin|].
  apply (Hcaught (Error "install failed")); [exact Hin|reflexivity].
Defined.

(* ================================================================= *)
(** * Further properties of the normalizer *)

Section NormalizerFurther.
Context {number : Type} {host : Host number}.

Lemma built_descriptor_not_Error (id : string) (x : JsVal number) (message : string) :
  built_descriptor id x <> Throw (Error message).
Proof.
  unfold built_descriptor.
  destruct (agent_name_of x); [|discriminate].
  destruct (walkable_servers (field x "settings")); [|discriminate].
  destruct (creativity_resources (field x "settings")); discriminate.
Qed.

(** X1: the two validation errors, exactly.  'Invalid UI config' is thrown if
    and only if the input is falsy or not an object; 'Missing required UI
    config fields' if and only if it is an object in which the name, the
    personality, the instructions or the settings is falsy (absent, [null],
    the empty string, zero, [false]); the converter throws no other [Error]. *)
Theorem X1_validation_errors_exact (x : JsVal number) (ids : IdSource) :
  (result_of (convertUIConfigToPluginConfig x) ids = Throw (Error "Invalid UI config")
   <-> truthy x = false \/ typeof_object x = false)
  /\ (result_of (convertUIConfigToPluginConfig x) ids
      = Throw (Error "Missing required UI config fields")
      <-> truthy x = true /\ typeof_object x = true
          /\ (truthy (field x "name") = false \/ truthy (field x "personality") = false
              \/ truthy (field x "instructions") = false
              \/ truthy (field x "settings") = false))
  /\ (forall message,
        result_of (convertUIConfigToPluginConfig x) ids = Throw (Error message) ->
        message = "Invalid UI config"
        \/ message = "Missing required UI config fields").
Proof.
  unfold result_of. rewrite convert_run. unfold passes_validation.
  destruct (truthy x), (typeof_object x); cbn [negb orb fst];
    try (split; [split; [auto|reflexivity]
                |split; [split; [discriminate|intros (? & ? & _); discriminate]
                        |intros m E; injection E as <-; auto]]).
  destruct (truthy (field x "name")), (truthy (field x "personality")),
    (truthy (field x "instructions")), (truthy (field x "settings"));
    cbn [negb andb fst];
    (split; [split; [intros E; try discriminate E;
                     exfalso; exact (built_descriptor_not_Error _ _ _ E)
                    |intros [E|E]; discriminate E]|]);
    (split; [split; [intros E; try (repeat split; tauto);
                     exfalso; exact (built_descriptor_not_Error _ _ _ E)
                    |intros (_ & _ & E); try reflexivity;
                     destruct E as [E|[E|[E|E]]]; discriminate E]
            |intros m E; try (injection E as <-; auto);
             exfalso; exact (built_descriptor_not_Error _ _ _ E)]).
Qed.

(** X2: identifiers are drawn in sequence.  Two conversions that succeed
    one after the other on one identifier source give the first two
    identifiers of the source to their descriptors and leave the source at the
    third; when those two identifiers differ, so do the [agent_id]s and the
    [facts_url]s. *)
Theorem X2_identifiers_drawn_in_sequence (x y : JsVal number) (ids ids1 ids2 : IdSource)
    (d1 d2 : AgentPluginConfig number) :
  convertUIConfigToPluginConfig x ids = (Ok d1, ids1) ->
  convertUIConfigToPluginConfig y ids1 = (Ok d2, ids2) ->
  agent_id d1 = ids 0 /\ agent_id d2 = ids 1
  /\ (forall n, ids2 n = ids (2 + n)%nat)
  /\ (ids 0 <> ids 1 ->
      agent_id d1 <> agent_id d2 /\ facts_url d1 <> facts_url d2).
Proof.
  intros Hx Hy.
  assert (forall z src d src',
             convertUIConfigToPluginConfig z src = (Ok d, src') ->
             src' = (fun n => src (S n)) /\ agent_id d = src 0
             /\ facts_url d = "https://agentify.example.com/agents/" ++ src 0) as Hone.
  { intros z src d src' H. rewrite convert_run in H.
    destruct (negb (truthy z) || negb (typeof_object z)); [discriminate|].
    destruct (negb (passes_validation z)); [discriminate|].
    injection H as Hd <-.
    destruct (built_descriptor_inv _ _ _ Hd)
      as (an & servers & cre & _ & _ & _ & Hi & Hf & _).
    auto. }
  destruct (Hone _ _ _ _ Hx) as (-> & Hi1 & Hf1).
  destruct (Hone _ _ _ _ Hy) as (-> & Hi2 & Hf2).
  repeat split; auto.
  - congruence.
  - rewrite Hf1, Hf2. cbn. intros E. injection E as E. congruence.
Qed.

(** X3: what a conversion costs the identifier source.  A conversion that
    ends in one of the two validation errors draws nothing; every other
    conversion draws exactly one identifier, also when it ends in a
    [TypeError]. *)
Theorem X3_identifier_consumption (x : JsVal number) (ids : IdSource) :
  (forall message,
      result_of (convertUIConfigToPluginConfig x) ids = Throw (Error message) ->
      snd (convertUIConfigToPluginConfig x ids) = ids)
  /\ ((result_of (convertUIConfigToPluginConfig x) ids = Throw TypeError
       \/ exists d, result_of (convertUIConfigToPluginConfig x) ids = Ok d) ->
      snd (convertUIConfigToPluginConfig x ids) = fun n => ids (S n)).
Proof.
  unfold result_of. rewrite convert_run.
  destruct (negb (truthy x) || negb (typeof_object x)); cbn [fst snd].
  - split; [reflexivity|]. intros [E|[d E]]; discriminate.
  - destruct (negb (passes_validation x)); cbn [fst snd].
    + split; [reflexivity|]. intros [E|[d E]]; discriminate.
    + split; [|reflexivity].
      intros m E. exfalso. exact (built_descriptor_not_Error _ _ _ E).
Qed.

(** X4: the fixed part of a descriptor.  Whatever the input, a returned
    descriptor has the input's instructions as its description -- the
    fall-back sentence built from the name is never used -- and the same type,
    version, time to live, signature, dependencies and flags; it has no build
    target and no prompts. *)
Theorem X4_description_and_fixed_fields (x : JsVal number) (ids : IdSource)
    (d : AgentPluginConfig number) :
  result_of (convertUIConfigToPluginConfig x) ids = Ok d ->
  description d = field x "instructions"
  /\ truthy (description d) = true
  /\ agentType d = llm /\ version d = "1.0.0" /\ ttl d = 3600%Z
  /\ signature d = "placeholder-signature"
  /\ buildTarget d = None /\ private_facts_url d = None /\ adaptive_router_url d = None
  /\ prompts d = Some [] /\ pythonDependencies d = []
  /\ useChromemGo d = true /\ subAgentCapabilities d = false.
Proof.
  intros H. apply convert_Ok_inv in H. destruct H as (_ & _ & Hp & Hd).
  unfold built_descriptor in Hd.
  destruct (agent_name_of x); [|discriminate].
  destruct (walkable_servers (field x "settings")); [|discriminate].
  destruct (creativity_resources (field x "settings")); [|discriminate].
  injection Hd as <-. cbn.
  unfold passes_validation in Hp. split_andb.
  repeat split; assumption.
Qed.

(** X5: the personality text is required and then discarded.  Two input
    objects that differ only in their personality, both non-empty, are
    converted alike under one identifier source. *)
Theorem X5_personality_text_is_discarded (x y : JsVal number) (ids : IdSource) :
  is_plain_object x = true -> is_plain_object y = true ->
  agree_outside ["personality"] x y ->
  truthy (field x "personality") = true ->
  truthy (field y "personality") = true ->
  convertUIConfigToPluginConfig x ids = convertUIConfigToPluginConfig y ids.
Proof.
  intros Hox Hoy Hagree Hpx Hpy.
  assert (forall key, String.eqb "personality" key = false ->
                      field x key = field y key) as Hk.
  { intros key Hkey. apply Hagree. cbn [In]. intros [<-|[]]. discriminate. }
  rewrite !convert_run.
  unfold passes_validation, built_descriptor, agent_name_of.
  rewrite Hpx, Hpy.
  rewrite (Hk "name"), (Hk "instructions"), (Hk "settings"),
    (Hk "agent_name"), (Hk "features"), (Hk "apiKeys") by reflexivity.
  destruct x; try discriminate; destruct y; try discriminate. reflexivity.
Qed.

(** X6: a supplied [agent_name] makes the display name irrelevant.  Two input
    objects that differ only in their name, both non-empty, and that supply a
    non-empty [agent_name] are converted alike. *)
Theorem X6_name_unused_when_agent_name_supplied (x y : JsVal number) (ids : IdSource) :
  is_plain_object x = true -> is_plain_object y = true ->
  agree_outside ["name"] x y ->
  truthy (field x "name") = true ->
  truthy (field y "name") = true ->
  truthy (field x "agent_name") = true ->
  convertUIConfigToPluginConfig x ids = convertUIConfigToPluginConfig y ids.
Proof.
  intros Hox Hoy Hagree Hnx Hny Han.
  assert (forall key, String.eqb "name" key = false ->
                      field x key = field y key) as Hk.
  { intros key Hkey. apply Hagree. cbn [In]. intros [<-|[]]. discriminate. }
  rewrite !convert_run.
  unfold passes_validation, built_descriptor, agent_name_of.
  rewrite Hnx, Hny.
  rewrite <- (Hk "agent_name") by reflexivity. rewrite Han.
  rewrite (Hk "personality"), (Hk "instructions"), (Hk "settings"),
    (Hk "features"), (Hk "apiKeys") by reflexivity.
  destruct x; try discriminate; destruct y; try discriminate. reflexivity.
Qed.

(** X7: inputs that pass validation and then break the conversion.  After
    both guards have passed, the conversion ends in a [TypeError], one
    identifier spent, when no [agent_name] is supplied and the name is not a
    string; when [mcpServers] is truthy and not an array; when the array holds
    [null] or [undefined]; or when the creativity is [null]. *)
Theorem X7_type_errors_after_validation (x : JsVal number) (ids : IdSource) :
  truthy x = true -> typeof_object x = true -> passes_validation x = true ->
  (truthy (field x "agent_name") = false /\ is_string (field x "name") = false)
  \/ (truthy (field (field x "settings") "mcpServers") = true
      /\ forall servers, field (field x "settings") "mcpServers" <> JArr servers)
  \/ (exists servers server,
         field (field x "settings") "mcpServers" = JArr servers
         /\ In server servers /\ is_nullish server = true)
  \/ field (field x "settings") "creativity" = JNull ->
  convertUIConfigToPluginConfig x ids = (Throw TypeError, fun n => ids (S n)).
Proof.
  intros Ht Ho Hp Hcase.
  rewrite convert_run, Ht, Ho, Hp. cbn [negb orb].
  f_equal. unfold built_descriptor.
  destruct Hcase as [[Han Hname] | [[Hm Hna] | [(servers & server & Hm & Hin & Hnull) | Hc]]].
  - unfold agent_name_of. rewrite Han.
    destruct (field x "name"); try discriminate; reflexivity.
  - assert (walkable_servers (field x "settings") = None) as ->.
    { unfold walkable_servers. rewrite Hm.
      destruct (field (field x "settings") "mcpServers"); try reflexivity.
      exfalso. eapply Hna. reflexivity. }
    destruct (agent_name_of x); reflexivity.
  - assert (walkable_servers (field x "settings") = None) as ->.
    { unfold walkable_servers. rewrite Hm. cbn [truthy].
      destruct (forallb (fun s => negb (is_nullish s)) servers) eqn:Hall;
        [|reflexivity].
      pose proof (proj1 (forallb_forall _ _) Hall server Hin) as Hs.
      cbn beta in Hs. rewrite Hnull in Hs. discriminate. }
    destruct (agent_name_of x); reflexivity.
  - assert (creativity_resources (field x "settings") = None) as ->
      by (unfold creativity_resources; rewrite Hc; reflexivity).
    destruct (agent_name_of x), (walkable_servers (field x "settings")); reflexivity.
Qed.

(** X8: the settings need only be truthy.  When the settings value is not an
    object -- [true], a number, a non-empty string, an array -- validation
    passes all the same, nothing is read from it, and the resources of the
    descriptor are the API keys alone. *)
Theorem X8_settings_need_only_be_truthy (x : JsVal number) (ids : IdSource) :
  is_plain_object x = true ->
  truthy (field x "name") = true -> is_string (field x "name") = true ->
  truthy (field x "personality") = true -> truthy (field x "instructions") = true ->
  truthy (field x "settings") = true -> is_plain_object (field x "settings") = false ->
  exists d,
    result_of (convertUIConfigToPluginConfig x) ids = Ok d
    /\ resources d = Some (if truthy (field x "apiKeys")
                           then [ {| resource_name := "api_keys";
                                     resource_type := json;
                                     resource_content := JSON_stringify (field x "apiKeys");
                                     resource_isEmbedded := true |} ]
                           else []).
Proof.
  intros Ho Hn Hs Hp Hi Hset Hnot.
  unfold result_of. rewrite convert_run. unfold passes_validation.
  rewrite Hn, Hp, Hi, Hset.
  destruct x; try discriminate. cbn [truthy typeof_object negb orb andb fst].
  unfold built_descriptor, agent_name_of, walkable_servers, creativity_resources.
  assert (forall key, field (field (JObj l) "settings") key = JUndefined) as Hf.
  { intros key. destruct (field (JObj l) "settings"); try reflexivity. discriminate. }
  rewrite !Hf. cbn [truthy].
  destruct (field (JObj l) "name") as [| | | |s| |] eqn:Hname; try discriminate.
  destruct (truthy (field (JObj l) "agent_name"));
    (eexists; split; [reflexivity|]); cbn [resources];
    unfold mcp_resources_from, api_key_resources; cbn;
    destruct (truthy (field (JObj l) "apiKeys")); reflexivity.
Qed.

Lemma feature_expansion_length (features : JsVal number) :
  (length (feature_expansion features) <= 3)%nat.
Proof.
  unfold feature_expansion. rewrite length_map.
  etransitivity; [apply filter_length_le|]. reflexivity.
Qed.

Lemma creativity_resources_length (settings : JsVal number) creativity :
  creativity_resources settings = Some creativity -> (length creativity <= 1)%nat.
Proof.
  unfold creativity_resources.
  destruct (field settings "creativity") as [| |b|n|s|l|props];
    try (intros E; injection E as <-; cbn; lia);
    try discriminate;
    match goal with
    | |- option_map _ ?t = _ -> _ => destruct t; cbn; intros E; try discriminate E;
                                     injection E as <-; cbn; lia
    end.
Qed.

(** X9: the size of a descriptor.  A returned descriptor has at most three
    tools, and at most two resources more than the input has MCP servers. *)
Theorem X9_descriptor_size (x : JsVal number) (ids : IdSource)
    (d : AgentPluginConfig number) :
  result_of (convertUIConfigToPluginConfig x) ids = Ok d ->
  exists ts rs,
    tools d = Some ts /\ resources d = Some rs
    /\ (length ts <= 3)%nat
    /\ (length rs <= length (servers_of (field x "settings")) + 2)%nat.
Proof.
  intros H. apply convert_Ok_inv in H. destruct H as (_ & _ & _ & Hd).
  destruct (built_descriptor_inv _ _ _ Hd)
    as (an & servers & cre & _ & Hw & Hc & _ & _ & _ & _ & Ht & Hr & _).
  apply walkable_servers_of in Hw. subst servers.
  do 2 eexists. split; [exact Ht|]. split; [exact Hr|].
  split; [apply feature_expansion_length|].
  rewrite !length_app, mcp_resources_length.
  pose proof (filter_length_le
                (fun server => truthy (field server "enabled"))
                (servers_of (field x "settings"))).
  pose proof (creativity_resources_length _ _ Hc).
  assert (length (api_key_resources (field x "apiKeys")) <= 1)%nat
    by (unfold api_key_resources; destruct (truthy _); cbn; lia).
  lia.
Qed.


End NormalizerFurther.

(* ----------------------------------------------------------------- *)
(** *** The generated name *)














(* ================================================================= *)
(** * Further properties of the service factory *)

(** Splits the answers of the world that the set-up consults. *)
Ltac run_set_up w :=
  unfold set_up_compiler, mkdirSync, primary_output_dir in *;
  set (primary := if env_truthy (NETLIFY (env w)) || env_truthy (VERCEL (env w))
                     || env_truthy (AWS_LAMBDA_FUNCTION_NAME (env w))
                  then tmp_output
                  else path_join [cwd w; "public"; "output"]) in *;
  destruct (import_AgentCompiler w) as [[]|?];
  destruct (existsSync w primary) eqn:Hexists;
  destruct (mkdirSync_result w primary) as [[]|?] eqn:Hmkdir;
  destruct (existsSync w tmp_output) eqn:Htmp_exists;
  destruct (mkdirSync_result w tmp_output) as [[]|?] eqn:Htmp_mkdir;
  destruct (new_AgentCompiler w) as [[]|?];
  cbn in *.




Lemma set_up_compiler_mkdir (w : World) :
  (forall path, In (MkdirSync path) (fst (set_up_compiler w)) ->
                existsSync w path = false
                /\ (path = primary_output_dir w \/ path = tmp_output))
  /\ (length (filter is_mkdir (fst (set_up_compiler w))) <= 2)%nat
  /\ (length (filter is_mkdir (fst (set_up_compiler w))) = 2%nat ->
      In WarnOutputDir (fst (set_up_compiler w))
      /\ mkdirSync_result w (primary_output_dir w) <> Ok tt).
Proof.
  run_set_up w; (split; [|split]);
    try lia;
    try (intros Hlen; discriminate Hlen);
    try (intros Hlen; split; [tauto|congruence]);
    intros path Hin;
    repeat match goal with
           | H : _ \/ _ |- _ => destruct H
           | H : False |- _ => destruct H
           | H : In _ _ |- _ => cbn [In] in H
           | H : MkdirSync _ = MkdirSync _ |- _ => injection H as <-
           | H : @eq Event _ _ |- _ => discriminate H
           end; auto.
Qed.

Lemma check_has_no_mkdir (w : World) :
  filter is_mkdir (fst (check_toolchain_availability w)) = [].
Proof. run_check w; reflexivity. Qed.

(** X15: how directories are created.  The factory creates a directory only
    if it does not exist, and only the output directory or the temporary one;
    it creates at most two, and the second only after a logged failure to
    create the first. *)
Theorem X15_directory_creation (w : World) :
  (forall path,
      In (MkdirSync path) (fst (createAgentCompilerService w)) ->
      existsSync w path = false
      /\ (path = primary_output_dir w \/ path = path_join ["/tmp"; "agentify-output"]))
  /\ (length (filter is_mkdir (fst (createAgentCompilerService w))) <= 2)%nat
  /\ (length (filter is_mkdir (fst (createAgentCompilerService w))) = 2%nat ->
      In WarnOutputDir (fst (createAgentCompilerService w))
      /\ mkdirSync_result w (primary_output_dir w) <> Ok tt).
Proof.
  destruct (set_up_compiler_mkdir w) as (Hpath & Hle & Htwo).
  assert (filter is_mkdir (fst (createAgentCompilerService w))
          = filter is_mkdir (fst (set_up_compiler w))) as Hfilter.
  { destruct (factory_split w) as [(err & _ & Hrun) | (service & _ & Htr & _)].
    - rewrite Hrun. reflexivity.
    - rewrite Htr, filter_app, check_has_no_mkdir, app_nil_r. reflexivity. }
  assert (forall e, In e (fst (set_up_compiler w)) ->
                    In e (fst (createAgentCompilerService w))) as Hsub.
  { intros e Hin.
    destruct (factory_split w) as [(err & _ & Hrun) | (service & _ & Htr & _)].
    - rewrite Hrun. exact Hin.
    - rewrite Htr. apply in_or_app. auto. }
  split; [|split].
  - intros path Hin. apply Hpath.
    assert (In (MkdirSync path) (filter is_mkdir (fst (createAgentCompilerService w))))
      as Hf by (apply filter_In; split; [exact Hin|reflexivity]).
    rewrite Hfilter in Hf. apply filter_In in Hf. apply Hf.
  - rewrite Hfilter. exact Hle.
  - rewrite Hfilter. intros Hlen. destruct (Htwo Hlen) as [Hw Hne]. auto.
Qed.

Lemma check_rejected (w : World) (e : Exn) :
  checkToolchain_result w = Throw e ->
  check_toolchain_availability w = ([CheckToolchain], Throw e).
Proof.
  intros H. unfold check_toolchain_availability. rewrite H. reflexivity.
Qed.

(** X16: a toolchain check that fails aborts the creation.  When the set-up
    has succeeded and [checkToolchain] rejects, the factory rejects with the
    same error: no service is returned, nothing is warned about and nothing
    is installed -- unlike a failure of the installation, which is caught. *)
Theorem X16_failed_check_aborts (w : World) (e : Exn) :
  In CheckToolchain (fst (createAgentCompilerService w)) ->
  checkToolchain_result w = Throw e ->
  snd (createAgentCompilerService w) = Throw e
  /\ filter is_missing_warning (fst (createAgentCompilerService w)) = []
  /\ filter is_install (fst (createAgentCompilerService w)) = [].
Proof.
  intros Hreached Hcheck.
  pose proof (check_rejected w e Hcheck) as Hc.
  split; [|split].
  - apply factory_toolchain_event in Hreached; [|reflexivity].
    destruct Hreached as (_ & service & _ & Hres).
    rewrite Hres, Hc. reflexivity.
  - rewrite factory_filter; [rewrite Hc; reflexivity| |exact Hreached].
    intros []; cbn; congruence.
  - rewrite factory_filter; [rewrite Hc; reflexivity| |exact Hreached].
    intros []; cbn; congruence.
Qed.

Lemma check_install_shape (w : World) :
  In InstallToolchain (fst (check_toolchain_availability w)) ->
  exists tc,
    checkToolchain_result w = Ok tc
    /\ fst (check_toolchain_availability w)
       = ([ CheckToolchain;
            WarnMissingToolchain (go tc) (python tc) (gcc tc);
            LogAttemptInstall; InstallToolchain ]
          ++ match installToolchain_result w with
             | Ok _ => []
             | Throw _ => [ErrorInstallFailed; LogFallbackMock]
             end)%list.
Proof.
  run_check w; intros H; clear_event_membership;
    (eexists; split; reflexivity).
Qed.

(** X17: the order of events around an installation.  When the installation
    runs, the factory has ended its set-up, checked the toolchain once, warned
    about the missing tools and logged the attempt; after the installation it
    logs a failure and the fall-back if the installation failed, and does
    nothing else: the toolchain is not checked again. *)
Theorem X17_events_around_installation (w : World) :
  In InstallToolchain (fst (createAgentCompilerService w)) ->
  exists tc,
    checkToolchain_result w = Ok tc
    /\ fst (createAgentCompilerService w)
       = (fst (set_up_compiler w)
          ++ [ CheckToolchain;
               WarnMissingToolchain (go tc) (python tc) (gcc tc);
               LogAttemptInstall; InstallToolchain ]
          ++ match installToolchain_result w with
             | Ok _ => []
             | Throw _ => [ErrorInstallFailed; LogFallbackMock]
             end)%list
    /\ forallb is_setup_event (fst (set_up_compiler w)) = true.
Proof.
  intros Hin.
  pose proof Hin as Hin'.
  apply factory_toolchain_event in Hin'; [|reflexivity].
  destruct Hin' as (Hin' & _).
  destruct (check_install_shape w Hin') as (tc & Hcheck & Hshape).
  exists tc. split; [exact Hcheck|]. split; [|apply set_up_compiler_events].
  destruct (factory_split w) as [(err & _ & Hrun) | (service & _ & Htr & _)].
  - rewrite Hrun in Hin. cbn [fst] in Hin.
    pose proof (proj1 (forallb_forall _ _) (set_up_compiler_events w) _ Hin).
    discriminate.
  - rewrite Htr, Hshape. reflexivity.
Qed.

(** X18: the fall-back to the temporary directory.  When the output
    directory does not exist and cannot be created, the failure is logged and
    the factory goes on with the temporary directory if that exists or can be
    created; if it can be created neither, the factory rejects with the
    second error. *)
Theorem X18_output_directory_fall_back (w : World) (e : Exn) :
  import_AgentCompiler w = Ok tt ->
  existsSync w (primary_output_dir w) = false ->
  mkdirSync_result w (primary_output_dir w) = Throw e ->
  In WarnOutputDir (fst (createAgentCompilerService w))
  /\ (existsSync w tmp_output = true \/ mkdirSync_result w tmp_output = Ok tt ->
      new_AgentCompiler w = Ok tt ->
      exists service,
        snd (set_up_compiler w) = Ok service /\ defaultOutputDir service = tmp_output)
  /\ (forall e2,
        existsSync w tmp_output = false ->
        mkdirSync_result w tmp_output = Throw e2 ->
        snd (createAgentCompilerService w) = Throw e2).
Proof.
  intros Himport Hexists Hmkdir.
  assert (In WarnOutputDir (fst (set_up_compiler w))
          /\ (existsSync w tmp_output = true \/ mkdirSync_result w tmp_output = Ok tt ->
              new_AgentCompiler w = Ok tt ->
              exists service,
                snd (set_up_compiler w) = Ok service
                /\ defaultOutputDir service = tmp_output)
          /\ (forall e2,
                existsSync w tmp_output = false ->
                mkdirSync_result w tmp_output = Throw e2 ->
                snd (set_up_compiler w) = Throw e2)) as (Hw & Hok & Hfail).
  { revert Himport Hexists Hmkdir.
    unfold set_up_compiler, mkdirSync, primary_output_dir.
    set (primary := if env_truthy (NETLIFY (env w)) || env_truthy (VERCEL (env w))
                       || env_truthy (AWS_LAMBDA_FUNCTION_NAME (env w))
                    then tmp_output
                    else path_join [cwd w; "public"; "output"]).
    intros -> -> ->.
    destruct (existsSync w tmp_output);
      destruct (mkdirSync_result w tmp_output) as [[]|?];
      destruct (new_AgentCompiler w) as [[]|?]; cbn;
      (split; [tauto|split]);
      try (intros _ _; eexists; split; reflexivity);
      try (intros [H|H] H'; discriminate);
      try (intros _ H'; discriminate);
      try (intros e2 H1 H2; try discriminate; congruence). }
  split; [|split; [exact Hok|]].
  - destruct (factory_split w) as [(err & _ & Hrun) | (service & _ & Htr & _)].
    + rewrite Hrun. exact Hw.
    + rewrite Htr. apply in_or_app. auto.
  - intros e2 H1 H2. specialize (Hfail e2 H1 H2).
    destruct (factory_split w) as [(err & Hs & Hrun) | (service & Hs & _)].
    + rewrite Hrun. cbn [snd]. congruence.
    + congruence.
Qed.

(* ================================================================= *)
(** * Properties of the registration route *)

Lemma substring_all (s : string) : String.substring 0 (String.length s) s = s.
Proof. induction s as [|c r IH]; cbn; congruence. Qed.

Lemma prefix_substring_from (p : string) :
  forall h, String.prefix p h = true -> h = p ++ substring_from (String.length p) h.
Proof.
  unfold substring_from.
  induction p as [|a p' IH]; intros h Hp.
  - cbn. rewrite Nat.sub_0_r, substring_all. reflexivity.
  - destruct h as [|b h']; [discriminate|].
    cbn in Hp. destruct (ascii_dec a b) as [<-|]; [|discriminate].
    cbn. f_equal. apply IH, Hp.
Qed.

Section RouteFacts.
Context {number : Type} {host : Host number}.

Lemma bearer_header (w : RouteWorld number) :
  lacks_bearer (authorization w) = false ->
  authorization w = Some ("Bearer " ++ bearer_token w).
Proof.
  unfold lacks_bearer, bearer_token.
  destruct (authorization w) as [h|]; [|discriminate].
  destruct h as [|c r]; [discriminate|].
  intros H. apply negb_false_iff in H.
  f_equal. apply (prefix_substring_from "Bearer " _ H).
Qed.

Lemma authenticate_run (w : RouteWorld number) :
  authenticate w
  = if lacks_bearer (authorization w)
    then ([], Resolved (inr (JsonResponse (error_body "Authentication required") 401)))
    else ([GetUser (bearer_token w)],
          match getUser_result w (bearer_token w) with
          | Resolved auth =>
              Resolved match auth_error auth, data_user auth with
                       | None, Some user => inl user
                       | _, _ => inr (JsonResponse
                                        (error_body "Invalid or expired token") 401)
                       end
          | Rejected t => Rejected t
          end).
Proof.
  unfold authenticate. fold (bearer_token w).
  destruct (lacks_bearer (authorization w)); [reflexivity|].
  cbn. destruct (getUser_result w (bearer_token w)) as [[user err]|t]; [|reflexivity].
  cbn. destruct err, user; reflexivity.
Qed.

(** X19: no bearer token, no work.  A request whose [authorization] header is
    missing, empty or does not start with 'Bearer ' is answered 401
    'Authentication required' by both handlers, and neither the identity
    service, nor the request body, nor the database is touched. *)
Theorem X19_no_bearer_no_work (w : RouteWorld number) :
  lacks_bearer (authorization w) = true ->
  POST w = ([], Resolved (JsonResponse (error_body "Authentication required") 401))
  /\ GET w = ([], Resolved (JsonResponse (error_body "Authentication required") 401)).
Proof.
  intros H. unfold POST, GET. rewrite authenticate_run, H. split; reflexivity.
Qed.

(** [POST], run: the calls made and the response, case by case. *)
Lemma POST_run (w : RouteWorld number) :
  POST w
  = if lacks_bearer (authorization w)
    then ([], Resolved (JsonResponse (error_body "Authentication required") 401))
    else
      match getUser_result w (bearer_token w) with
      | Rejected t => ([GetUser (bearer_token w); ConsoleError], Resolved (refusal_500 t))
      | Resolved auth =>
          match auth_error auth, data_user auth with
          | None, Some user =>
              match request_json w with
              | Rejected t =>
                  ([GetUser (bearer_token w); RequestJson; ConsoleError],
                   Resolved (refusal_500 t))
              | Resolved body =>
                  if is_nullish body then
                    ([GetUser (bearer_token w); RequestJson; ConsoleError],
                     Resolved (refusal_500 (ThrownError (destructure_message w))))
                  else if negb (truthy (field body "identity"))
                          || negb (truthy (field body "personality")) then
                    ([GetUser (bearer_token w); RequestJson],
                     Resolved (JsonResponse
                                 (error_body "Identity and personality are required")
                                 400))
                  else
                    let row := {| row_user_id := user_id user;
                                  row_identity := or_empty_object (field body "identity");
                                  row_personality :=
                                    or_empty_object (field body "personality");
                                  row_capabilities :=
                                    or_empty_object (field body "capabilities") |} in
                    match upsert_result w row with
                    | Rejected t =>
                        ([GetUser (bearer_token w); RequestJson; Upsert row; ConsoleError],
                         Resolved (refusal_500 t))
                    | Resolved answer =>
                        match query_error answer with
                        | Some message =>
                            ([GetUser (bearer_token w); RequestJson; Upsert row;
                              ConsoleError],
                             Resolved (JsonResponse (error_body message) 400))
                        | None =>
                            ([GetUser (bearer_token w); RequestJson; Upsert row],
                             Resolved
                               (JsonResponse
                                  (JObj [ ("success", JBool true);
                                          ("data", first_row (query_data answer));
                                          ("message",
                                           JStr "Agent configuration saved successfully") ])
                                  200))
                        end
                    end
              end
          | _, _ =>
              ([GetUser (bearer_token w)],
               Resolved (JsonResponse (error_body "Invalid or expired token") 401))
          end
      end.
Proof.
  unfold POST. rewrite authenticate_run.
  destruct (lacks_bearer (authorization w)); [reflexivity|].
  destruct (getUser_result w (bearer_token w)) as [[[user|] [err|]]|t];
    try reflexivity.
  cbn [auth_error data_user].
  destruct (request_json w) as [body|t]; [|reflexivity].
  destruct (is_nullish body) eqn:Hnull.
  { unfold run_try, run_bind, run_emit, run_await, run_ret. rewrite Hnull. reflexivity. }
  destruct (truthy (field body "identity")) eqn:Hi,
           (truthy (field body "personality")) eqn:Hp;
    try (unfold run_try, run_bind, run_emit, run_await, run_ret;
         rewrite Hnull, Hi, Hp; reflexivity).
  cbn [negb orb].
  unfold run_try, run_bind, run_emit, run_await, run_ret.
  rewrite Hnull, Hi, Hp. cbn [negb orb].
  match goal with
  | |- context [upsert_result w ?row] =>
      destruct (upsert_result w row) as [[rows [qerr|]]|t]
  end; reflexivity.
Qed.

(** [GET], run. *)
Lemma GET_run (w : RouteWorld number) :
  GET w
  = if lacks_bearer (authorization w)
    then ([], Resolved (JsonResponse (error_body "Authentication required") 401))
    else
      match getUser_result w (bearer_token w) with
      | Rejected t => ([GetUser (bearer_token w); ConsoleError], Resolved (refusal_500 t))
      | Resolved auth =>
          match auth_error auth, data_user auth with
          | None, Some user =>
              match select_result w (user_id user) with
              | Rejected t =>
                  ([GetUser (bearer_token w); SelectAgentConfigs (user_id user);
                    ConsoleError],
                   Resolved (refusal_500 t))
              | Resolved answer =>
                  match query_error answer with
                  | Some message =>
                      ([GetUser (bearer_token w); SelectAgentConfigs (user_id user);
                        ConsoleError],
                       Resolved (JsonResponse (error_body message) 400))
                  | None =>
                      ([GetUser (bearer_token w); SelectAgentConfigs (user_id user)],
                       Resolved
                         (JsonResponse
                            (JObj [ ("success", JBool true);
                                    ("data", JArr match query_data answer with
                                                  | Some rows => rows
                                                  | None => []
                                                  end);
                                    ("message",
                                     JStr "Agent configurations retrieved successfully") ])
                            200))
                  end
              end
          | _, _ =>
              ([GetUser (bearer_token w)],
               Resolved (JsonResponse (error_body "Invalid or expired token") 401))
          end
      end.
Proof.
  unfold GET. rewrite authenticate_run.
  destruct (lacks_bearer (authorization w)); [reflexivity|].
  destruct (getUser_result w (bearer_token w)) as [[[user|] [err|]]|t];
    try reflexivity.
  cbn [auth_error data_user].
  unfold run_try, run_bind, run_emit, run_await, run_ret.
  destruct (select_result w (user_id user)) as [[rows [qerr|]]|t]; reflexivity.
Qed.

Ltac split_POST w :=
  rewrite POST_run;
  destruct (lacks_bearer (authorization w)) eqn:Hbearer;
  [|destruct (getUser_result w (bearer_token w)) as [[[user|] [err|]]|thrown] eqn:Hauth;
    cbn [auth_error data_user];
    try (destruct (request_json w) as [body|thrown] eqn:Hjson;
         try (destruct (is_nullish body) eqn:Hnull;
              try (destruct (truthy (field body "identity")) eqn:Hidentity;
                   destruct (truthy (field body "personality")) eqn:Hpersonality;
                   cbn [negb orb];
                   try match goal with
                       | |- context [upsert_result w ?row] =>
                           destruct (upsert_result w row) as [[rows [qerr|]]|thrown]
                             eqn:Hupsert;
                           cbn [query_error query_data]
                       end)))];
  cbn [fst snd In].

Ltac split_GET w :=
  rewrite GET_run;
  destruct (lacks_bearer (authorization w)) eqn:Hbearer;
  [|destruct (getUser_result w (bearer_token w)) as [[[user|] [err|]]|thrown] eqn:Hauth;
    cbn [auth_error data_user];
    try (destruct (select_result w (user_id user)) as [[rows [qerr|]]|thrown] eqn:Hselect;
         cbn [query_error query_data])];
  cbn [fst snd In].

Ltac clear_route_membership :=
  repeat match goal with
         | H : _ \/ _ |- _ => destruct H
         | H : False |- _ => destruct H
         | H : Upsert _ = Upsert _ |- _ => injection H as <-
         | H : SelectAgentConfigs _ = SelectAgentConfigs _ |- _ => injection H as <-
         | H : @eq (RouteEvent _) _ _ |- _ => discriminate H
         end.

(** X20: what [POST] writes, and for whom.  Whenever [POST] calls [upsert],
    the request carried 'Bearer ' followed by a token, the identity service
    returned a user and no error for exactly that token, and the row holds
    that user's id -- never an id taken from the body -- with the body's
    identity and personality unchanged, both truthy, and the capabilities or
    an empty object. *)
Theorem X20_POST_writes_for_the_verified_user (w : RouteWorld number)
    (row : AgentConfigRow number) :
  In (Upsert row) (fst (POST w)) ->
  exists token user body,
    authorization w = Some ("Bearer " ++ token)
    /\ getUser_result w token = Resolved {| data_user := Some user; auth_error := None |}
    /\ request_json w = Resolved body
    /\ truthy (field body "identity") = true
    /\ truthy (field body "personality") = true
    /\ row = {| row_user_id := user_id user;
                row_identity := field body "identity";
                row_personality := field body "personality";
                row_capabilities := if truthy (field body "capabilities")
                                    then field body "capabilities"
                                    else JObj [] |}.
Proof.
  pose proof (bearer_header w) as Hheader.
  split_POST w; intros Hin; clear_route_membership;
    (exists (bearer_token w), user, body;
     unfold or_empty_object; rewrite Hidentity, Hpersonality; auto 7).
Qed.

(** X21: the handlers never throw.  [POST] and [GET] always resolve to a
    response, whatever the header, the identity service, the body and the
    database do, and its status is 200, 400, 401 or 500. *)
Theorem X21_handlers_always_respond (w : RouteWorld number) :
  (exists r, snd (POST w) = Resolved r /\ in_statuses (response_status r) = true)
  /\ (exists r, snd (GET w) = Resolved r /\ in_statuses (response_status r) = true).
Proof.
  split.
  - split_POST w; eexists; split; reflexivity.
  - split_GET w; eexists; split; reflexivity.
Qed.

(** X22: a 200 from [POST] means the row was stored.  [POST] answers 200 only
    after an [upsert] that resolved without an error; the body then reports
    success together with the first returned row, or no row when none came
    back. *)
Theorem X22_POST_success_means_stored (w : RouteWorld number) (r : Response number) :
  snd (POST w) = Resolved r ->
  response_status r = 200%Z ->
  exists row answer,
    In (Upsert row) (fst (POST w))
    /\ upsert_result w row = Resolved answer
    /\ query_error answer = None
    /\ r = JsonResponse
             (JObj [ ("success", JBool true);
                     ("data", match query_data answer with
                              | Some (first :: _) => first
                              | _ => JUndefined
                              end);
                     ("message", JStr "Agent configuration saved successfully") ])
             200.
Proof.
  split_POST w; intros Hr Hstatus; injection Hr as <-; try discriminate Hstatus.
  do 2 eexists. split; [cbn; auto|]. split; [exact Hupsert|]. split; reflexivity.
Qed.

(** X23: what [GET] reads, and for whom.  Whenever [GET] queries the table it
    does so for the id of the user the identity service returned for the
    request's token; a 200 carries the rows of that query, or an empty array
    when the query returned [null]. *)
Theorem X23_GET_reads_for_the_verified_user (w : RouteWorld number) (of_user : string) :
  In (SelectAgentConfigs of_user) (fst (GET w)) ->
  exists token user,
    authorization w = Some ("Bearer " ++ token)
    /\ getUser_result w token = Resolved {| data_user := Some user; auth_error := None |}
    /\ of_user = user_id user
    /\ (forall r,
          snd (GET w) = Resolved r -> response_status r = 200%Z ->
          exists answer,
            select_result w of_user = Resolved answer
            /\ query_error answer = None
            /\ r = JsonResponse
                     (JObj [ ("success", JBool true);
                             ("data", JArr match query_data answer with
                                           | Some rows => rows
                                           | None => []
                                           end);
                             ("message",
                              JStr "Agent configurations retrieved successfully") ])
                     200).
Proof.
  pose proof (bearer_header w) as Hheader.
  split_GET w; intros Hin; clear_route_membership;
    (exists (bearer_token w), user; repeat split; auto;
     intros r Hr Hstatus; injection Hr as <-;
     first [discriminate Hstatus
           |eexists; split; [eassumption|split; reflexivity]]).
Qed.


(** X25: what [POST] refuses.  For an authenticated request: a body that is
    [null] is answered 500 with the engine's message; a body in which the
    identity or the personality is falsy is answered 400 'Identity and
    personality are required'; a rejected [request.json()] is answered 500
    with the error's message, or 'Unknown error' when what was thrown is not
    an [Error].  In none of these cases is anything written. *)
Theorem X25_POST_refusals (w : RouteWorld number) (verified : User) :
  snd (authenticate w) = Resolved (inl verified) ->
  (forall row, In (Upsert row) (fst (POST w)) ->
               exists body, request_json w = Resolved body
                            /\ is_nullish body = false
                            /\ truthy (field body "identity") = true
                            /\ truthy (field body "personality") = true)
  /\ (forall t, request_json w = Rejected t ->
                snd (POST w) = Resolved (JsonResponse
                                           (error_body match t with
                                                       | ThrownError message => message
                                                       | ThrownOther => "Unknown error"
                                                       end) 500))
  /\ (forall body, request_json w = Resolved body -> is_nullish body = true ->
                   snd (POST w) = Resolved (JsonResponse
                                              (error_body (destructure_message w)) 500))
  /\ (forall body, request_json w = Resolved body -> is_nullish body = false ->
                   truthy (field body "identity") = false
                   \/ truthy (field body "personality") = false ->
                   snd (POST w)
                   = Resolved (JsonResponse
                                 (error_body "Identity and personality are required")
                                 400)).
Proof.
  rewrite authenticate_run.
  split_POST w; cbn [snd]; intros Hwho; try discriminate Hwho;
    (split; [intros row Hin; clear_route_membership; eauto|]);
    (split; [intros t' E; try discriminate E; injection E as <-; destruct thrown;
             reflexivity|]);
    (split; [intros b E Hn; try discriminate E; injection E as <-;
             try reflexivity; congruence|]);
    intros b E Hn Hfalsy; try discriminate E; injection E as <-;
    try reflexivity; try congruence;
    destruct Hfalsy; congruence.
Qed.

End RouteFacts.

(* ================================================================= *)
(** * Properties of the progress hook *)

Section ProgressHookFacts.
Context {number : Type} {host : Host number}.

Lemma has_type_iff (message : JsVal number) (name : string) :
  has_type message name = true <-> field message "type" = JStr name.
Proof.
  unfold has_type. destruct (field message "type"); try (split; discriminate).
  split.
  - intros H. apply String.eqb_eq in H. congruence.
  - intros H. injection H as ->. apply String.eqb_refl.
Qed.

(** X26: how a message is dispatched.  [onMessage], when given, is called
    first, with the message itself.  [onCompilationUpdate] is called exactly
    when it is given and the message's type is 'compilation_update', and then
    with the message's [data] if that is truthy and otherwise with the step,
    progress, message, status and tab read from the message itself;
    [onDeploymentUpdate] likewise for 'deployment_update'.  No message reaches
    both. *)
Theorem X26_listener_dispatch (options : UseSSEOptions)
    (properties : list (string * JsVal number)) :
  (onMessage options = true ->
   hd_error (messageListener options properties)
   = Some (CallOnMessage (JObj properties)))
  /\ (forall update,
        In (CallOnCompilationUpdate update) (messageListener options properties)
        <-> onCompilationUpdate options = true
            /\ field (JObj properties) "type" = JStr "compilation_update"
            /\ update = if truthy (field (JObj properties) "data")
                        then field (JObj properties) "data"
                        else JObj [ ("step", field (JObj properties) "step");
                                    ("progress", field (JObj properties) "progress");
                                    ("message", field (JObj properties) "message");
                                    ("status", field (JObj properties) "status");
                                    ("tab", field (JObj properties) "tab") ])
  /\ (forall update,
        In (CallOnDeploymentUpdate update) (messageListener options properties)
        <-> onDeploymentUpdate options = true
            /\ field (JObj properties) "type" = JStr "deployment_update"
            /\ update = if truthy (field (JObj properties) "data")
                        then field (JObj properties) "data"
                        else JObj [ ("deploymentId",
                                     field (JObj properties) "deploymentId");
                                    ("status", field (JObj properties) "status");
                                    ("progress", field (JObj properties) "progress");
                                    ("message", field (JObj properties) "message") ])
  /\ (forall u1 u2,
        ~ (In (CallOnCompilationUpdate u1) (messageListener options properties)
           /\ In (CallOnDeploymentUpdate u2) (messageListener options properties))).
Proof.
  unfold messageListener.
  set (message := JObj properties).
  pose proof (has_type_iff message "compilation_update") as Hc.
  pose proof (has_type_iff message "deployment_update") as Hd.
  assert (data_or_flat message ["step"; "progress"; "message"; "status"; "tab"]
          = if truthy (field message "data") then field message "data"
            else JObj [ ("step", field message "step");
                        ("progress", field message "progress");
                        ("message", field message "message");
                        ("status", field message "status");
                        ("tab", field message "tab") ]) as Hcd by reflexivity.
  assert (data_or_flat message ["deploymentId"; "status"; "progress"; "message"]
          = if truthy (field message "data") then field message "data"
            else JObj [ ("deploymentId", field message "deploymentId");
                        ("status", field message "status");
                        ("progress", field message "progress");
                        ("message", field message "message") ]) as Hdd by reflexivity.
  rewrite Hcd, Hdd. clear Hcd Hdd.
  assert (has_type message "compilation_update" = true ->
          has_type message "deployment_update" = false) as Hexcl.
  { intros H. apply Hc in H. unfold has_type. rewrite H. reflexivity. }
  destruct (onMessage options), (onCompilationUpdate options),
    (onDeploymentUpdate options);
    destruct (has_type message "compilation_update") eqn:Htc;
    destruct (has_type message "deployment_update") eqn:Htd;
    try (specialize (Hexcl eq_refl); discriminate Hexcl);
    destruct (has_type message "connection");
    cbn [optional_call app hd_error In];
    (split; [intros H; first [reflexivity|discriminate H]|]);
    (split; [intros update; split;
             [intros H; repeat match goal with
                               | H : _ \/ _ |- _ => destruct H
                               | H : False |- _ => destruct H
                               | H : CallOnCompilationUpdate _ = _ |- _ =>
                                   injection H as <-
                               | H : @eq (ListenerCall _) _ _ |- _ => discriminate H
                               end;
              repeat split; try reflexivity; apply Hc; reflexivity
             |intros (H1 & H2 & ->); try discriminate H1;
              try (apply Hc in H2; discriminate H2); auto]|]);
    (split; [intros update; split;
             [intros H; repeat match goal with
                               | H : _ \/ _ |- _ => destruct H
                               | H : False |- _ => destruct H
                               | H : CallOnDeploymentUpdate _ = _ |- _ =>
                                   injection H as <-
                               | H : @eq (ListenerCall _) _ _ |- _ => discriminate H
                               end;
              repeat split; try reflexivity; apply Hd; reflexivity
             |intros (H1 & H2 & ->); try discriminate H1;
              try (apply Hd in H2; discriminate H2); auto]|]);
    intros u1 u2 [H1 H2];
    repeat match goal with
           | H : _ \/ _ |- _ => destruct H
           | H : False |- _ => destruct H
           | H : @eq (ListenerCall _) _ _ |- _ => discriminate H
           end.
Qed.

End ProgressHookFacts.

(** X27: connections do not outlive their effect.  Over any sequence of
    values of the access token, the calls the auto-connect effect makes to
    the manager are a sequence of blocks, one per value: a clean-up alone, or
    a connect with a non-empty token followed by a clean-up and a disconnect.
    So every connect is followed by its disconnect before the next connect,
    connects and disconnects balance, and with [autoConnect] false nothing
    connects. *)
Theorem X27_connections_are_balanced (options : UseSSEOptions)
    (accessTokens : list (option string)) :
  (exists blocks,
      autoConnect_lifecycle options accessTokens = concat blocks
      /\ length blocks = length accessTokens
      /\ Forall (fun block =>
                   block = [Cleanup]
                   \/ exists token,
                       token <> EmptyString /\ In (Some token) accessTokens
                       /\ block = [Connect token; Cleanup; Disconnect])
                blocks)
  /\ length (filter is_connect (autoConnect_lifecycle options accessTokens))
     = length (filter is_disconnect (autoConnect_lifecycle options accessTokens))
  /\ length (filter is_cleanup (autoConnect_lifecycle options accessTokens))
     = length accessTokens
  /\ (autoConnect options = Some false ->
      filter is_connect (autoConnect_lifecycle options accessTokens) = []).
Proof.
  induction accessTokens as [|accessToken later (Hblocks & Hbalance & Hclean & Hoff)].
  - repeat split; try reflexivity. exists []. repeat split. constructor.
  - destruct Hblocks as (blocks & Hconcat & Hlen & Hall).
    assert (Forall (fun block =>
                      block = [Cleanup]
                      \/ exists token,
                          token <> EmptyString
                          /\ In (Some token) (accessToken :: later)
                          /\ block = [Connect token; Cleanup; Disconnect]) blocks)
      as Hall'.
    { eapply Forall_impl; [|exact Hall].
      intros block [H|(token & Hne & Hin & H)]; [left; exact H|right].
      exists token. cbn [In]. auto. }
    cbn [autoConnect_lifecycle]. unfold autoConnect_effect.
    destruct accessToken as [[|c r]|];
      destruct (autoConnect options) as [[|]|];
      cbn [fst snd app filter is_connect is_disconnect is_cleanup length];
      (split; [|split; [|split]]);
      try (rewrite Hclean; reflexivity);
      try (rewrite Hbalance; reflexivity);
      try (intros H; first [discriminate H | exact (Hoff H)]);
      try (exists ([Cleanup] :: blocks); cbn [concat app length];
           rewrite Hconcat, Hlen; repeat split; auto; fail);
      (exists ([Connect (String c r); Cleanup; Disconnect] :: blocks);
       cbn [concat app length]; rewrite Hconcat, Hlen; repeat split;
       constructor; [|exact Hall'];
       right; exists (String c r); cbn [In]; repeat split; auto; discriminate).
Qed.

(* ================================================================= *)
(** * Properties of the LLM tools *)

Lemma convert_messages_spec (messagesSlice : list GoValue) :
  forall messages,
    (forall converted,
        convert_messages messagesSlice messages = GoOk converted <->
        exists fresh,
          converted = (messages ++ fresh)%list
          /\ Forall2 (fun msgRaw message => convert_message msgRaw = GoOk message)
                     messagesSlice fresh)
    /\ (forall text_,
           convert_messages messagesSlice messages = GoErr text_ <->
           exists before bad after,
             messagesSlice = (before ++ bad :: after)%list
             /\ Forall (fun msgRaw => exists message,
                            convert_message msgRaw = GoOk message) before
             /\ convert_message bad = GoErr text_).
Proof.
  induction messagesSlice as [|msgRaw rest IH]; intros messages.
  - split.
    + intros converted. cbn. split.
      * intros H. injection H as <-. exists []. rewrite app_nil_r. split; constructor.
      * intros (fresh & -> & Hf). inversion Hf. rewrite app_nil_r. reflexivity.
    + intros text_. cbn. split; [discriminate|].
      intros (before & bad & after & H & _). destruct before; discriminate.
  - cbn [convert_messages].
    destruct (convert_message msgRaw) as [message|err] eqn:Hm.
    + destruct (IH (messages ++ [message])%list) as [IHok IHerr]. split.
      * intros converted. rewrite IHok. split.
        -- intros (fresh & -> & Hf). exists (message :: fresh).
           rewrite <- app_assoc. split; [reflexivity|]. constructor; assumption.
        -- intros (fresh & -> & Hf). inversion Hf as [|? m' ? fresh' Hh Ht]; subst.
           rewrite Hm in Hh. injection Hh as <-.
           exists fresh'. rewrite <- app_assoc. auto.
      * intros text_. rewrite IHerr. split.
        -- intros (before & bad & after & -> & Hb & Hbad).
           exists (msgRaw :: before), bad, after. repeat split; auto.
           constructor; eauto.
        -- intros (before & bad & after & H & Hb & Hbad).
           destruct before as [|first before'].
           ++ cbn in H. injection H as <- _. congruence.
           ++ cbn in H. injection H as <- ->.
              exists before', bad, after. inversion Hb; subst. auto.
    + split.
      * intros converted. split; [discriminate|].
        intros (fresh & _ & Hf). inversion Hf; subst. congruence.
      * intros text_. split.
        -- intros H. injection H as <-.
           exists [], msgRaw, rest. repeat split; auto.
        -- intros (before & bad & after & H & Hb & Hbad).
           destruct before as [|first before'].
           ++ cbn in H. injection H as <- _. congruence.
           ++ cbn in H. injection H as <- _. inversion Hb as [|? ? [m Hfirst] ?]; subst.
              congruence.
Qed.

(** X28: how the chat tool reads its messages.  The loop succeeds exactly
    when every element of the slice is a map with a string role and a string
    content, and then yields the messages in the order of the slice; it fails
    with the error of the first element that is not, whatever follows it. *)
Theorem X28_messages_converted_in_order (messagesSlice : list GoValue) :
  (forall converted,
      convert_messages messagesSlice [] = GoOk converted <->
      Forall2 (fun msgRaw message =>
                 exists msgMap,
                   msgRaw = GMap msgMap
                   /\ map_index msgMap "role" = Some (GString (Role message))
                   /\ map_index msgMap "content" = Some (GString (Content message)))
              messagesSlice converted)
  /\ (forall text_,
         convert_messages messagesSlice [] = GoErr text_ <->
         exists before bad after,
           messagesSlice = (before ++ bad :: after)%list
           /\ Forall (fun msgRaw => exists message,
                          convert_message msgRaw = GoOk message) before
           /\ convert_message bad = GoErr text_).
Proof.
  destruct (convert_messages_spec messagesSlice []) as [Hok Herr].
  split; [|exact Herr].
  intros converted. rewrite Hok. cbn [app].
  assert (forall msgRaw message,
             convert_message msgRaw = GoOk message <->
             exists msgMap,
               msgRaw = GMap msgMap
               /\ map_index msgMap "role" = Some (GString (Role message))
               /\ map_index msgMap "content" = Some (GString (Content message)))
    as Hone.
  { intros msgRaw message. unfold convert_message. split.
    - destruct msgRaw as [|s|items|msgMap|]; try discriminate.
      destruct (map_index msgMap "role") as [[|role| | |]|] eqn:Hr; try discriminate.
      destruct (map_index msgMap "content") as [[|content| | |]|] eqn:Hc;
        try discriminate.
      intros H. injection H as <-. exists msgMap. auto.
    - intros (msgMap & -> & Hr & Hc). rewrite Hr, Hc. destruct message; reflexivity. }
  clear Hok Herr. split.
  - intros (fresh & -> & Hf).
    induction Hf; constructor; auto. apply Hone. assumption.
  - intros Hf. exists converted. split; [reflexivity|].
    induction Hf; constructor; auto. apply Hone. assumption.
Qed.

Lemma convert_message_value (m : LLMMessage) : convert_message (message_value m) = GoOk m.
Proof. destruct m; reflexivity. Qed.

(** X29: writing messages into the parameters and reading them back.  When
    the [messages] parameter holds a list of messages, each written as a map
    with its role and content, the chat tool hands exactly that list, in
    order, to the generator, once, and answers with the generator's text or
    with its error, wrapped. *)
Theorem X29_chat_tool_round_trip (plugin : PluginGenerators)
    (params : list (string * GoValue)) (messages : list LLMMessage) :
  map_index params "messages" = Some (GSlice (map message_value messages)) ->
  LLMChatTool plugin params
  = ([CallGenerateFromMessages messages],
     match GenerateFromMessages plugin messages with
     | GoOk response => GoOk (GMap [ ("text", GString response) ])
     | GoErr err => GoErr ("error generating text: " ++ err)
     end).
Proof.
  intros Hp. unfold LLMChatTool. rewrite Hp.
  assert (convert_messages (map message_value messages) [] = GoOk messages) as ->.
  { apply (proj1 (convert_messages_spec _ [])). exists messages.
    split; [reflexivity|]. clear Hp.
    induction messages; constructor; auto. apply convert_message_value. }
  reflexivity.
Qed.

(** X30: a generator is called only on valid parameters.  Each tool calls
    its generator at most once, and whether it does depends on the
    parameters alone; when it does not call it, the tool ends in an error
    that is the same whatever the plugin. *)
Theorem X30_generators_called_only_when_valid (plugin other : PluginGenerators)
    (params : list (string * GoValue)) :
  (length (fst (LLMGenerateTextTool plugin params)) <= 1)%nat
  /\ (length (fst (LLMChatTool plugin params)) <= 1)%nat
  /\ fst (LLMGenerateTextTool plugin params) = fst (LLMGenerateTextTool other params)
  /\ fst (LLMChatTool plugin params) = fst (LLMChatTool other params)
  /\ (fst (LLMGenerateTextTool plugin params) = [] ->
      LLMGenerateTextTool plugin params = LLMGenerateTextTool other params
      /\ exists text_, snd (LLMGenerateTextTool plugin params) = GoErr text_)
  /\ (fst (LLMChatTool plugin params) = [] ->
      LLMChatTool plugin params = LLMChatTool other params
      /\ exists text_, snd (LLMChatTool plugin params) = GoErr text_).
Proof.
  unfold LLMGenerateTextTool, LLMChatTool.
  destruct (map_index params "prompt") as [[|prompt|items|entries|]|];
    destruct (map_index params "messages") as [[|s|messagesSlice|entries'|]|];
    try destruct (convert_messages messagesSlice []);
    cbn [fst snd length];
    repeat split; try lia; try discriminate; eauto.
Qed.

(* ================================================================= *)
(** * The further properties on sample inputs *)

Lemma X2_witness :
  exists d1 d2 : AgentPluginConfig Z,
    agent_id d1 = "id-0" /\ agent_id d2 = "id-1"
    /\ facts_url d1 <> facts_url d2.
Proof.
  destruct (X2_identifiers_drawn_in_sequence
              scenario_A scenario_B sample_ids _ _ _ _ eq_refl eq_refl)
    as (H1 & H2 & _ & Hne).
  do 2 eexists. split; [exact H1|]. split; [exact H2|].
  apply Hne. discriminate.
Defined.

Lemma X4_witness :
  exists d : AgentPluginConfig Z,
    result_of (convertUIConfigToPluginConfig scenario_A) sample_ids = Ok d
    /\ description d = JStr "help customers".
Proof.
  eexists. split; [reflexivity|].
  apply (X4_description_and_fixed_fields scenario_A sample_ids _ eq_refl).
Defined.

Lemma X5_witness :
  convertUIConfigToPluginConfig scenario_A sample_ids
  = convertUIConfigToPluginConfig scenario_A_grumpy sample_ids.
Proof.
  apply (X5_personality_text_is_discarded scenario_A scenario_A_grumpy sample_ids);
    try reflexivity.
  intros key Hkey. cbn [In] in Hkey.
  destruct (String.eqb_spec "personality" key) as [<-|Hp]; [tauto|].
  unfold scenario_A, scenario_A_grumpy. cbn [field own_property].
  repeat match goal with
         | |- context [String.eqb ?k key] => destruct (String.eqb_spec k key)
         end; try reflexivity; congruence.
Defined.

Lemma X6_witness :
  convertUIConfigToPluginConfig scenario_full sample_ids
  = convertUIConfigToPluginConfig scenario_full_renamed sample_ids.
Proof.
  apply (X6_name_unused_when_agent_name_supplied
           scenario_full scenario_full_renamed sample_ids);
    try reflexivity.
  intros key Hkey. cbn [In] in Hkey.
  destruct (String.eqb_spec "name" key) as [<-|Hn]; [tauto|].
  unfold scenario_full_renamed, scenario_full. cbn [field own_property].
  repeat match goal with
         | |- context [String.eqb ?k key] => destruct (String.eqb_spec k key)
         end; try reflexivity; congruence.
Defined.

Lemma X7_witness :
  convertUIConfigToPluginConfig scenario_null_creativity sample_ids
  = (Throw TypeError, fun n => sample_ids (S n)).
Proof.
  apply (X7_type_errors_after_validation scenario_null_creativity sample_ids);
    try reflexivity.
  right. right. right. reflexivity.
Defined.

Lemma X8_witness :
  exists d : AgentPluginConfig Z,
    result_of (convertUIConfigToPluginConfig scenario_loose) sample_ids = Ok d
    /\ resources d = Some [].
Proof.
  apply (X8_settings_need_only_be_truthy scenario_loose sample_ids); reflexivity.
Defined.

Lemma X9_witness :
  exists (d : AgentPluginConfig Z) ts rs,
    result_of (convertUIConfigToPluginConfig scenario_full) sample_ids = Ok d
    /\ tools d = Some ts /\ resources d = Some rs
    /\ (length ts <= 3)%nat /\ (length rs <= 3 + 2)%nat.
Proof.
  destruct (X9_descriptor_size scenario_full sample_ids _ eq_refl)
    as (ts & rs & Ht & Hr & H1 & H2).
  eexists _, ts, rs. split; [reflexivity|]. auto.
Defined.




Lemma X16_witness :
  snd (createAgentCompilerService world_check_fails) = Throw (Error "spawn failed").
Proof.
  apply (X16_failed_check_aborts world_check_fails (Error "spawn failed")).
  - cbn. tauto.
  - reflexivity.
Defined.

Lemma X17_witness :
  exists tc,
    fst (createAgentCompilerService world_install_fails)
    = (fst (set_up_compiler world_install_fails)
       ++ [ CheckToolchain; WarnMissingToolchain (go tc) (python tc) (gcc tc);
            LogAttemptInstall; InstallToolchain; ErrorInstallFailed;
            LogFallbackMock ])%list.
Proof.
  destruct (X17_events_around_installation world_install_fails ltac:(cbn; tauto))
    as (tc & _ & Hshape & _).
  exists tc. exact Hshape.
Defined.

Lemma X18_witness :
  In WarnOutputDir (fst (createAgentCompilerService world_read_only))
  /\ exists service,
      snd (set_up_compiler world_read_only) = Ok service
      /\ defaultOutputDir service = tmp_output.
Proof.
  destruct (X18_output_directory_fall_back world_read_only (Error "EROFS")
              eq_refl eq_refl eq_refl) as (Hwarn & Hok & _).
  split; [exact Hwarn|]. apply Hok; [right|]; reflexivity.
Defined.

Lemma X19_witness :
  POST request_without_header
  = ([], Resolved (JsonResponse (error_body "Authentication required") 401)).
Proof.
  apply (proj1 (X19_no_bearer_no_work request_without_header eq_refl)).
Defined.

Lemma X20_witness :
  exists token user body,
    authorization request_registering = Some ("Bearer " ++ token)
    /\ getUser_result request_registering token
       = Resolved {| data_user := Some user; auth_error := None |}
    /\ request_json request_registering = Resolved body
    /\ user_id user = "u-1".
Proof.
  destruct (X20_POST_writes_for_the_verified_user request_registering
              {| row_user_id := "u-1";
                 row_identity := field sample_registration "identity";
                 row_personality := field sample_registration "personality";
                 row_capabilities := JObj [] |}
              ltac:(cbn; tauto))
    as (token & user & body & Hh & Hu & Hb & _ & _ & Hrow).
  exists token, user, body. repeat split; try assumption.
  injection Hrow as Hid _. congruence.
Defined.

Lemma X22_witness :
  exists row answer,
    In (Upsert row) (fst (POST request_registering))
    /\ upsert_result request_registering row = Resolved answer
    /\ query_error answer = None.
Proof.
  destruct (X22_POST_success_means_stored request_registering _ eq_refl eq_refl)
    as (row & answer & Hin & Hres & Herr & _).
  exists row, answer. auto.
Defined.

Lemma X23_witness :
  exists token user,
    authorization request_registering = Some ("Bearer " ++ token)
    /\ getUser_result request_registering token
       = Resolved {| data_user := Some user; auth_error := None |}
    /\ "u-1" = user_id user.
Proof.
  destruct (X23_GET_reads_for_the_verified_user request_registering "u-1"
              ltac:(cbn; tauto))
    as (token & user & Hh & Hu & Hid & _).
  exists token, user. auto.
Defined.

Lemma X25_witness :
  snd (POST request_incomplete)
  = Resolved (JsonResponse (error_body "Identity and personality are required") 400).
Proof.
  destruct (X25_POST_refusals request_incomplete {| user_id := "u-1" |} eq_refl)
    as (_ & _ & _ & Hfalsy).
  apply (Hfalsy (JObj [ ("identity", JObj [ ("name", JStr "Helper") ]) ]));
    [reflexivity|reflexivity|right; reflexivity].
Defined.

Lemma X29_witness :
  LLMChatTool echo_plugin
    [ ("model", GString "small");
      ("messages", GSlice (map message_value sample_messages)) ]
  = ([CallGenerateFromMessages sample_messages],
     GoOk (GMap [ ("text", GString "be brief") ])).
Proof.
  apply (X29_chat_tool_round_trip echo_plugin
           [ ("model", GString "small");
             ("messages", GSlice (map message_value sample_messages)) ]
           sample_messages eq_refl).
Defined.
